(** * Argon UI: the admin node console and the server search widget

    A shallow embedding of [src/pages/[admin]/Nodes.tsx] and
    [src/components/SearchBar.tsx].

    Modelling conventions.
    - JavaScript numbers that the code uses as counts, indices, page numbers,
      ports and MiB amounts are integers of [Z]: the model covers
      integer-valued numbers whose sums and products stay below 2^53, where
      the arithmetic of doubles is exact.  Nothing here speaks of fractions,
      of NaN or of the infinities.  [Math.ceil (a / b)] is the integer
      ceiling, which is the value of the code for [b <> 0] only; the page
      size of [Nodes.tsx] is the constant 10, and every statement on the
      number of pages assumes a page size of at least 1.
    - Optional fields ([allocations?], [diskMiB?], [systemState?]) are
      [option]s; [null] and [undefined] are both [None].
    - Strings are [string]s of bytes and stand for ASCII text:
      [toLowerCase] acts on the letters A-Z, [trim] removes the ASCII white
      space (tab, line feed, vertical tab, form feed, carriage return and
      space).  Letters with a case and white space beyond U+007F are
      outside the model.
    - React state is a record; a handler reads the values captured by the
      render it was created in (its closure, an [AppState] argument named
      [cl]) and writes through the setters, which act on the live state.
    - Network calls are answered by a [World], a deterministic environment
      that may depend on every request issued so far; each call is recorded
      in a request log. *)

From Stdlib Require Import ZArith String Ascii Bool Lia.
From Stdlib Require Import List Permutation Sorted.
From Stdlib Require Import DecimalString.
Import ListNotations.

Local Open Scope string_scope.
Local Open Scope list_scope.
Local Open Scope Z_scope.

(* ================================================================== *)
(** ** JavaScript primitives used by the two files *)

Module Js.

(** [Math.ceil (a / b)] on integers, for a divisor [b <> 0].  At [b = 0]
    the code computes an infinity or NaN, of which [Z] has none: the value
    of [ceil_div a 0] is not that of the code, and statements that use it
    assume [1 <= b]. *)
Definition ceil_div (a b : Z) : Z := - ((- a) / b).

(** [Array.prototype.slice (start, end)] with integer arguments: a
    negative index counts from the end, both ends are clamped to the
    array. *)
Definition rel_index (len i : Z) : Z :=
  if i <? 0 then Z.max (len + i) 0 else Z.min i len.

Definition slice {A : Type} (l : list A) (start stop : Z) : list A :=
  let len := Z.of_nat (length l) in
  let k := rel_index len start in
  let final := rel_index len stop in
  firstn (Z.to_nat (Z.max (final - k) 0)) (skipn (Z.to_nat k) l).

(** [x || d] on an optional string: [undefined], [null] and the empty
    string are falsy. *)
Definition or_default (x : option string) (d : string) : string :=
  match x with
  | Some s => if String.eqb s "" then d else s
  | None => d
  end.

(** [x || 0] on an optional number. *)
Definition or_zero (x : option Z) : Z :=
  match x with
  | Some v => if v =? 0 then 0 else v
  | None => 0
  end.

(** [Array.from ({ length: n }, (_, i) => f i)]. *)
Definition array_from {A : Type} (n : Z) (f : Z -> A) : list A :=
  map (fun i => f (Z.of_nat i)) (seq 0 (Z.to_nat n)).

(** The decimal rendering of an integer in a template literal. *)
Definition number_to_string (z : Z) : string :=
  if z =? 0 then "0" else NilZero.string_of_int (Z.to_int z).

(** [String.prototype.toLowerCase] on ASCII text: the letters A-Z are
    mapped to a-z, every other byte is kept. *)
Definition lower_char (c : ascii) : ascii :=
  let n := nat_of_ascii c in
  if (Nat.leb 65 n && Nat.leb n 90)%bool then ascii_of_nat (n + 32) else c.

Fixpoint toLowerCase (s : string) : string :=
  match s with
  | EmptyString => EmptyString
  | String c t => String (lower_char c) (toLowerCase t)
  end.

(** [String.prototype.includes]. *)
Fixpoint includes (s sub : string) : bool :=
  String.prefix sub s ||
  match s with
  | EmptyString => false
  | String _ t => includes t sub
  end.

(** [String.prototype.trim] on ASCII text: the white space of ASCII (code
    points 9 to 13 and 32) is removed at both ends.  The white space that
    ECMAScript also knows beyond U+007F (U+00A0, U+FEFF, the Zs category,
    the line separators) is not modelled. *)
Definition is_space (c : ascii) : bool :=
  let n := nat_of_ascii c in
  (Nat.leb 9 n && Nat.leb n 13)%bool || Nat.eqb n 32.

Fixpoint trimStart (s : string) : string :=
  match s with
  | EmptyString => EmptyString
  | String c t => if is_space c then trimStart t else s
  end.

Fixpoint rev_string (s acc : string) : string :=
  match s with
  | EmptyString => acc
  | String c t => rev_string t (String c acc)
  end.

Definition trim (s : string) : string :=
  rev_string (trimStart (rev_string (trimStart s) "")) "".

(** Truthiness of a string: [!s] holds exactly for the empty string. *)
Definition falsy (s : string) : bool := String.eqb s "".

(** [Array.prototype.sort (compareFn)] on a copy of the array.  The sort of
    ECMAScript is stable; with a comparator that orders consistently its
    result is the one stable arrangement, computed here by insertion: [x]
    goes before the first [y] with [compareFn (x, y) <= 0]. *)
Fixpoint insert_by {A : Type} (compareFn : A -> A -> Z) (x : A)
  (l : list A) : list A :=
  match l with
  | [] => [x]
  | y :: t =>
    if compareFn x y <=? 0 then x :: y :: t
    else y :: insert_by compareFn x t
  end.

Definition sort {A : Type} (compareFn : A -> A -> Z) (l : list A) : list A :=
  fold_right (insert_by compareFn) [] l.

(** [arr[i]] for an integer [i]: [undefined] out of range. *)
Definition at_index {A : Type} (l : list A) (i : Z) : option A :=
  if i <? 0 then None else nth_error l (Z.to_nat i).

(** [Number (b)] on a boolean. *)
Definition Number (b : bool) : Z := if b then 1 else 0.

End Js.

(* ================================================================== *)
(** ** Data model of [Nodes.tsx] *)

Module SystemState.
Record t := mk {
  version : string;
  kernel : string;
  osVersion : string;
  hostname : string;
  cpuCores : Z;
  memoryTotal : Z;
  containersTotal : Z;
  containersRunning : Z;
  containersStopped : Z
}.
End SystemState.

Module Allocation.
Record t := mk {
  id : string;
  nodeId : string;
  port : Z;
  bindAddress : string;
  alias : option string;
  notes : option string;
  assigned : bool;
  createdAt : string;
  updatedAt : string
}.
End Allocation.

Module Resources.
Record t := mk {
  memoryAllocated : Z;
  diskAllocated : Z;
  cpuAllocated : Z
}.
End Resources.

Module Node.
Record t := mk {
  id : string;
  name : string;
  fqdn : string;
  port : Z;
  isOnline : bool;
  lastChecked : string;
  createdAt : string;
  updatedAt : string;
  systemState : option SystemState.t;
  connectionKey : option string;
  allocations : option (list Allocation.t);
  resources : option Resources.t
}.

(** [{ ...node, resources }] *)
Definition with_resources (node : t) (r : Resources.t) : t :=
  mk (id node) (name node) (fqdn node) (port node) (isOnline node)
     (lastChecked node) (createdAt node) (updatedAt node)
     (systemState node) (connectionKey node) (allocations node) (Some r).

(** [{ ...node, systemState }] *)
Definition with_systemState (node : t) (s : option SystemState.t) : t :=
  mk (id node) (name node) (fqdn node) (port node) (isOnline node)
     (lastChecked node) (createdAt node) (updatedAt node)
     s (connectionKey node) (allocations node) (resources node).
End Node.

Module Server.
Record t := mk {
  id : string;
  name : string;
  internalId : string;
  state : string;
  cpuPercent : Z;
  memoryMiB : Z;
  diskMiB : option Z;
  userId : string;
  statusState : string;
  node : Node.t
}.
End Server.

Module AllocationFormData.
Record t := mk {
  bindAddress : string;
  port : option Z;
  portRange : option (Z * Z);
  alias : option string;
  notes : option string
}.
End AllocationFormData.

Module PaginationState.
Record t := mk {
  page : Z;
  limit : Z;
  total : Z
}.

(** [{ ...prev, total }] and [{ ...prev, page }] *)
Definition with_total (prev : t) (n : Z) : t := mk (page prev) (limit prev) n.
Definition with_page (prev : t) (p : Z) : t := mk p (limit prev) (total prev).
End PaginationState.

Inductive View := ViewList | ViewCreate | ViewView | ViewEdit.
Inductive Tab := TabOverview | TabServers | TabConfigure | TabAllocations.
Inductive AlertType := AlertError | AlertSuccess | AlertWarning.
Inductive FormMode := ModeSingle | ModeRange.

Definition View_eqb (a b : View) : bool :=
  match a, b with
  | ViewList, ViewList | ViewCreate, ViewCreate
  | ViewView, ViewView | ViewEdit, ViewEdit => true
  | _, _ => false
  end.

Definition Tab_eqb (a b : Tab) : bool :=
  match a, b with
  | TabOverview, TabOverview | TabServers, TabServers
  | TabConfigure, TabConfigure | TabAllocations, TabAllocations => true
  | _, _ => false
  end.

(* ================================================================== *)
(** ** The resource aggregation of [fetchData] (lines 222-233) *)

(** [arr.reduce ((sum, s) => sum + f s, 0)]: the terms are added from
    left to right, starting at 0.  On integer-valued terms whose partial
    sums stay below 2^53 this is the sum the code computes; the rounding
    of doubles beyond that is not modelled. *)
Definition reduce_sum {A : Type} (f : A -> Z) (arr : list A) : Z :=
  fold_left (fun sum s => sum + f s) arr 0.

Definition nodeServers (serversData : list Server.t) (node : Node.t)
  : list Server.t :=
  filter (fun s => String.eqb (Node.id (Server.node s)) (Node.id node))
         serversData.

Definition withResources (serversData : list Server.t) (node : Node.t)
  : Node.t :=
  let nodeServers := nodeServers serversData node in
  Node.with_resources node
    (Resources.mk
       (reduce_sum (fun s => Server.memoryMiB s * 1024 * 1024) nodeServers)
       (reduce_sum (fun s => Js.or_zero (Server.diskMiB s) * 1024 * 1024)
                   nodeServers)
       (reduce_sum (fun s => Server.cpuPercent s) nodeServers)).

Definition nodesWithResources (nodesData : list Node.t)
  (serversData : list Server.t) : list Node.t :=
  map (withResources serversData) nodesData.

(* ================================================================== *)
(** ** The partitioned pager: [renderPagination] and [renderAllocationTab] *)

Record PaginationView := mkPaginationView {
  totalPages : Z;
  showingFrom : Z;
  showingTo : Z;
  prevDisabled : bool;
  pageButtons : list Z;
  nextDisabled : bool
}.

Definition pageNum (totalPages currentPage i : Z) : Z :=
  if totalPages <=? 5 then i + 1
  else if currentPage <=? 3 then i + 1
  else if currentPage >=? totalPages - 2 then totalPages - 4 + i
  else currentPage - 2 + i.

Definition renderPagination (pagination : PaginationState.t)
  : PaginationView :=
  let totalPages :=
    Z.max 1 (Js.ceil_div (PaginationState.total pagination)
                         (PaginationState.limit pagination)) in
  let currentPage := PaginationState.page pagination in
  mkPaginationView
    totalPages
    (Z.min ((currentPage - 1) * PaginationState.limit pagination + 1)
           (PaginationState.total pagination))
    (Z.min (currentPage * PaginationState.limit pagination)
           (PaginationState.total pagination))
    (currentPage =? 1)
    (Js.array_from (Z.min 5 totalPages) (pageNum totalPages currentPage))
    (currentPage =? totalPages).

Record AllocationTabView := mkAllocationTabView {
  assignedAllocations : list Allocation.t;
  unassignedAllocations : list Allocation.t;
  paginatedAssigned : list Allocation.t;
  paginatedUnassigned : list Allocation.t;
  showAssigned : bool;
  showUnassigned : bool;
  (** the "In Use" group, when it is rendered, and its rows *)
  inUseGroup : option (list Allocation.t);
  (** the "Available" group, when it is rendered, and its rows *)
  availableGroup : option (list Allocation.t);
  noAllocationsNotice : bool;
  paginationControl : option PaginationView
}.

Definition is_nonempty {A : Type} (l : list A) : bool :=
  0 <? Z.of_nat (length l).

(** [selectedNode.allocations || []] *)
Definition allocationsOf (node : Node.t) : list Allocation.t :=
  match Node.allocations node with
  | Some l => l
  | None => []
  end.

Definition renderAllocationTab (selectedNode : option Node.t)
  (allocationPagination : PaginationState.t) : option AllocationTabView :=
  match selectedNode with
  | None => None
  | Some selectedNode =>
    let page := PaginationState.page allocationPagination in
    let limit := PaginationState.limit allocationPagination in
    let allocations := allocationsOf selectedNode in
    let assignedAllocations := filter Allocation.assigned allocations in
    let unassignedAllocations :=
      filter (fun a => negb (Allocation.assigned a)) allocations in
    let assignedLength := Z.of_nat (length assignedAllocations) in
    let paginatedAssigned :=
      Js.slice assignedAllocations ((page - 1) * limit) (page * limit) in
    let paginatedUnassigned :=
      Js.slice unassignedAllocations
        (Z.max 0 ((page - 1) * limit - assignedLength))
        (Z.max 0 (page * limit - assignedLength)) in
    let startIdx := (page - 1) * limit in
    let endIdx := page * limit in
    let showAssigned := startIdx <? assignedLength in
    let showUnassigned := endIdx >? assignedLength in
    Some (mkAllocationTabView
            assignedAllocations unassignedAllocations
            paginatedAssigned paginatedUnassigned
            showAssigned showUnassigned
            (if showAssigned && is_nonempty assignedAllocations
             then Some paginatedAssigned else None)
            (if showUnassigned && is_nonempty unassignedAllocations
             then Some paginatedUnassigned else None)
            (Z.of_nat (length allocations) =? 0)
            (if is_nonempty allocations
             then Some (renderPagination allocationPagination) else None))
  end.

(** What one page puts on the screen: the rows of the "In Use" group
    followed by the rows of the "Available" group. *)
Definition rows (g : option (list Allocation.t)) : list Allocation.t :=
  match g with
  | Some l => l
  | None => []
  end.

Definition displayed (v : AllocationTabView) : list Allocation.t :=
  rows (inUseGroup v) ++ rows (availableGroup v).

(* ================================================================== *)
(** ** Component state of [AdminNodesPage] *)

Record Alert := mkAlert {
  alertType : AlertType;
  alertMessage : string
}.

(** The [useState] cells that the modelled handlers read or write.  (The
    node form, the clipboard flag and the table sort cells are not touched
    by them; alert ids and the auto-dismiss timer are left out.) *)
Record AppState := mkAppState {
  nodes : list Node.t;
  servers : list Server.t;
  loading : bool;
  error : option string;
  view : View;
  selectedNode : option Node.t;
  isCreatingAllocation : bool;
  selectedAllocations : list string;
  activeTab : Tab;
  allocationFormData : AllocationFormData.t;
  allocationFormMode : FormMode;
  allocationFormError : option string;
  alerts : list Alert;
  allocationPagination : PaginationState.t
}.

Definition setNodes (f : list Node.t -> list Node.t) (s : AppState) :=
  mkAppState (f (nodes s)) (servers s) (loading s) (error s) (view s)
    (selectedNode s) (isCreatingAllocation s) (selectedAllocations s)
    (activeTab s) (allocationFormData s) (allocationFormMode s)
    (allocationFormError s) (alerts s) (allocationPagination s).

Definition setServers (v : list Server.t) (s : AppState) :=
  mkAppState (nodes s) v (loading s) (error s) (view s)
    (selectedNode s) (isCreatingAllocation s) (selectedAllocations s)
    (activeTab s) (allocationFormData s) (allocationFormMode s)
    (allocationFormError s) (alerts s) (allocationPagination s).

Definition setLoading (v : bool) (s : AppState) :=
  mkAppState (nodes s) (servers s) v (error s) (view s)
    (selectedNode s) (isCreatingAllocation s) (selectedAllocations s)
    (activeTab s) (allocationFormData s) (allocationFormMode s)
    (allocationFormError s) (alerts s) (allocationPagination s).

Definition setError (v : option string) (s : AppState) :=
  mkAppState (nodes s) (servers s) (loading s) v (view s)
    (selectedNode s) (isCreatingAllocation s) (selectedAllocations s)
    (activeTab s) (allocationFormData s) (allocationFormMode s)
    (allocationFormError s) (alerts s) (allocationPagination s).

Definition setView (v : View) (s : AppState) :=
  mkAppState (nodes s) (servers s) (loading s) (error s) v
    (selectedNode s) (isCreatingAllocation s) (selectedAllocations s)
    (activeTab s) (allocationFormData s) (allocationFormMode s)
    (allocationFormError s) (alerts s) (allocationPagination s).

Definition setSelectedNode (v : option Node.t) (s : AppState) :=
  mkAppState (nodes s) (servers s) (loading s) (error s) (view s)
    v (isCreatingAllocation s) (selectedAllocations s)
    (activeTab s) (allocationFormData s) (allocationFormMode s)
    (allocationFormError s) (alerts s) (allocationPagination s).

Definition setIsCreatingAllocation (v : bool) (s : AppState) :=
  mkAppState (nodes s) (servers s) (loading s) (error s) (view s)
    (selectedNode s) v (selectedAllocations s)
    (activeTab s) (allocationFormData s) (allocationFormMode s)
    (allocationFormError s) (alerts s) (allocationPagination s).

Definition setSelectedAllocations (v : list string) (s : AppState) :=
  mkAppState (nodes s) (servers s) (loading s) (error s) (view s)
    (selectedNode s) (isCreatingAllocation s) v
    (activeTab s) (allocationFormData s) (allocationFormMode s)
    (allocationFormError s) (alerts s) (allocationPagination s).

Definition setActiveTab (v : Tab) (s : AppState) :=
  mkAppState (nodes s) (servers s) (loading s) (error s) (view s)
    (selectedNode s) (isCreatingAllocation s) (selectedAllocations s)
    v (allocationFormData s) (allocationFormMode s)
    (allocationFormError s) (alerts s) (allocationPagination s).

Definition setAllocationFormData (v : AllocationFormData.t) (s : AppState) :=
  mkAppState (nodes s) (servers s) (loading s) (error s) (view s)
    (selectedNode s) (isCreatingAllocation s) (selectedAllocations s)
    (activeTab s) v (allocationFormMode s)
    (allocationFormError s) (alerts s) (allocationPagination s).

Definition setAllocationFormMode (v : FormMode) (s : AppState) :=
  mkAppState (nodes s) (servers s) (loading s) (error s) (view s)
    (selectedNode s) (isCreatingAllocation s) (selectedAllocations s)
    (activeTab s) (allocationFormData s) v
    (allocationFormError s) (alerts s) (allocationPagination s).

Definition setAllocationFormError (v : option string) (s : AppState) :=
  mkAppState (nodes s) (servers s) (loading s) (error s) (view s)
    (selectedNode s) (isCreatingAllocation s) (selectedAllocations s)
    (activeTab s) (allocationFormData s) (allocationFormMode s)
    v (alerts s) (allocationPagination s).

Definition setAlerts (f : list Alert -> list Alert) (s : AppState) :=
  mkAppState (nodes s) (servers s) (loading s) (error s) (view s)
    (selectedNode s) (isCreatingAllocation s) (selectedAllocations s)
    (activeTab s) (allocationFormData s) (allocationFormMode s)
    (allocationFormError s) (f (alerts s)) (allocationPagination s).

Definition setAllocationPagination
  (f : PaginationState.t -> PaginationState.t) (s : AppState) :=
  mkAppState (nodes s) (servers s) (loading s) (error s) (view s)
    (selectedNode s) (isCreatingAllocation s) (selectedAllocations s)
    (activeTab s) (allocationFormData s) (allocationFormMode s)
    (allocationFormError s) (alerts s) (f (allocationPagination s)).

(** The effect of lines 154-161, run after a render in which
    [selectedNode] or [activeTab] changed. *)
Definition allocationTotalEffect (s : AppState) : AppState :=
  match selectedNode s with
  | Some node =>
    match Node.allocations node with
    | Some l =>
      if Tab_eqb (activeTab s) TabAllocations
      then setAllocationPagination
             (fun prev => PaginationState.with_total prev
                            (Z.of_nat (length l))) s
      else s
    | None => s
    end
  | None => s
  end.

(* ================================================================== *)
(** ** The network and the handler monad *)

Inductive Request :=
| GetNodes
| GetServers
| GetNode (nodeId : string)
| DeleteNode (nodeId : string)
| PostAllocation (nodeId : string) (body : AllocationFormData.t)
| DeleteAllocation (nodeId allocationId : string)
| GetState (fqdn : string) (port : Z).

(** The JSON body of an unsuccessful API response. *)
Record ErrorBody := mkErrorBody {
  errorField : option string;
  countField : option Z
}.

(** The result of [response.json ()]. *)
Inductive JsonResult (B : Type) :=
| Parsed (b : B)
| Unparsable (message : string).
Arguments Parsed {B} b.
Arguments Unparsable {B} message.

(** A response object: [response.ok] and its body. *)
Inductive Response (A : Type) :=
| RespOk (body : JsonResult A)
| RespNotOk (body : JsonResult ErrorBody).
Arguments RespOk {A} body.
Arguments RespNotOk {A} body.

(** What the promise of [fetch] settles to. *)
Inductive Reply (A : Type) :=
| FetchRejected (message : string)
| Fulfilled (response : Response A).
Arguments FetchRejected {A} message.
Arguments Fulfilled {A} response.

Record World := mkWorld {
  getNodes : list Request -> Reply (list Node.t);
  getServers : list Request -> Reply (list Server.t);
  getNode : list Request -> string -> Reply Node.t;
  deleteNode : list Request -> string -> Reply unit;
  postAllocation :
    list Request -> string -> AllocationFormData.t -> Reply unit;
  deleteAllocation : list Request -> string -> string -> Reply unit;
  getState : list Request -> string -> Z -> Reply SystemState.t
}.

Record Store := mkStore {
  ui : AppState;
  log : list Request
}.

Inductive Outcome (A : Type) :=
| Returned (a : A)
| Thrown (message : string).
Arguments Returned {A} a.
Arguments Thrown {A} message.

Definition M (A : Type) : Type := Store -> Outcome A * Store.

Definition ret {A : Type} (a : A) : M A := fun s => (Returned a, s).

Definition throw {A : Type} (message : string) : M A :=
  fun s => (Thrown message, s).

Definition bind {A B : Type} (m : M A) (k : A -> M B) : M B :=
  fun s =>
    match m s with
    | (Returned a, s') => k a s'
    | (Thrown e, s') => (Thrown e, s')
    end.

Notation "x <- m ;; k" := (bind m (fun x => k))
  (at level 61, m at next level, right associativity).
Notation "m ;; k" := (bind m (fun _ => k))
  (at level 61, right associativity).

(** [try { m } catch (err) { handler err.message }] *)
Definition try_catch {A : Type} (m : M A) (handler : string -> M A) : M A :=
  fun s =>
    match m s with
    | (Returned a, s') => (Returned a, s')
    | (Thrown e, s') => handler e s'
    end.

(** [try { m } finally { f }] *)
Definition try_finally {A : Type} (m : M A) (f : M unit) : M A :=
  fun s =>
    match m s with
    | (out, s') =>
      match f s' with
      | (Returned _, s'') => (out, s'')
      | (Thrown e, s'') => (Thrown e, s'')
      end
    end.

(** A state setter called from a handler. *)
Definition set (f : AppState -> AppState) : M unit :=
  fun s => (Returned tt, mkStore (f (ui s)) (log s)).

(** [fetch (...)] without the [await]: the request leaves now. *)
Definition fetch_start {A : Type} (req : Request)
  (answer : list Request -> Reply A) : M (Reply A) :=
  fun s => (Returned (answer (log s)), mkStore (ui s) (log s ++ [req])).

Definition await {A : Type} (r : Reply A) : M (Response A) :=
  match r with
  | FetchRejected e => throw e
  | Fulfilled response => ret response
  end.

(** [await fetch (...)] *)
Definition fetch {A : Type} (req : Request)
  (answer : list Request -> Reply A) : M (Response A) :=
  r <- fetch_start req answer ;; await r.

(** [await response.json ()] *)
Definition json {B : Type} (body : JsonResult B) : M B :=
  match body with
  | Parsed b => ret b
  | Unparsable e => throw e
  end.

(** [for (const x of xs) { body x }], also the order in which
    [Promise.all (xs.map (async ...))] starts its calls. *)
Fixpoint for_each {A : Type} (xs : list A) (body : A -> M unit) : M unit :=
  match xs with
  | [] => ret tt
  | x :: rest => body x ;; for_each rest body
  end.

Fixpoint map_all {A B : Type} (xs : list A) (f : A -> M B) : M (list B) :=
  match xs with
  | [] => ret []
  | x :: rest => y <- f x ;; ys <- map_all rest f ;; ret (y :: ys)
  end.

(* ================================================================== *)
(** ** The handlers of [AdminNodesPage] *)

Section Handlers.

Variable w : World.

(** [showAlert (type, message)] *)
Definition showAlert (type : AlertType) (message : string) : M unit :=
  set (setAlerts (fun prev => prev ++ [mkAlert type message])).

(** [{ ...prev, total: node.allocations ? node.allocations.length : 0 }] *)
Definition refreshTotal (l : list Allocation.t) : M unit :=
  set (setAllocationPagination
         (fun prev => PaginationState.with_total prev (Z.of_nat (length l)))).

Definition fetchNodeState (node : Node.t) : M (option SystemState.t) :=
  try_catch
    (response <- fetch (GetState (Node.fqdn node) (Node.port node))
                       (fun h => getState w h (Node.fqdn node)
                                          (Node.port node)) ;;
     match response with
     | RespNotOk _ => throw "Failed to fetch node state"
     | RespOk body => s <- json body ;; ret (Some s)
     end)
    (fun _ => ret None).

(** The callback of the second [Promise.all] of [fetchData]. *)
Definition withState (node : Node.t) : M Node.t :=
  if Node.isOnline node
  then systemState <- fetchNodeState node ;;
       ret (Node.with_systemState node systemState)
  else ret node.

Definition fetchData (cl : AppState) : M unit :=
  try_finally
    (try_catch
       (set (setLoading true) ;;
        nodesReply <- fetch_start GetNodes (getNodes w) ;;
        serversReply <- fetch_start GetServers (getServers w) ;;
        nodesRes <- await nodesReply ;;
        serversRes <- await serversReply ;;
        match nodesRes with
        | RespNotOk body =>
          errorData <- json body ;;
          throw (Js.or_default (errorField errorData) "Failed to fetch nodes")
        | RespOk nodesBody =>
          match serversRes with
          | RespNotOk body =>
            errorData <- json body ;;
            throw (Js.or_default (errorField errorData)
                                 "Failed to fetch servers")
          | RespOk serversBody =>
            nodesData <- json nodesBody ;;
            serversData <- json serversBody ;;
            nodesWithState <-
              map_all (nodesWithResources nodesData serversData) withState ;;
            set (setNodes (fun _ => nodesWithState)) ;;
            set (setServers serversData) ;;
            match selectedNode cl with
            | Some selected =>
              if View_eqb (view cl) ViewView then
                match find (fun n => String.eqb (Node.id n)
                                                (Node.id selected))
                           nodesWithState with
                | Some updatedNode =>
                  set (setSelectedNode (Some updatedNode)) ;;
                  if Tab_eqb (activeTab cl) TabAllocations then
                    match Node.allocations updatedNode with
                    | Some l => refreshTotal l
                    | None => ret tt
                    end
                  else ret tt
                | None => ret tt
                end
              else ret tt
            | None => ret tt
            end ;;
            set (setError None)
          end
        end)
       (fun errorMessage =>
          set (setError (Some errorMessage)) ;;
          showAlert AlertError errorMessage))
    (set (setLoading false)).

Definition fetchSingleNode (cl : AppState) (nodeId : string)
  : M (option Node.t) :=
  try_finally
    (try_catch
       (set (setLoading true) ;;
        response <- fetch (GetNode nodeId) (fun h => getNode w h nodeId) ;;
        match response with
        | RespNotOk body =>
          errorData <- json body ;;
          throw (Js.or_default (errorField errorData) "Failed to fetch node")
        | RespOk body =>
          nodeData <- json body ;;
          set (setNodes
                 (fun prevNodes =>
                    map (fun node => if String.eqb (Node.id node) nodeId
                                     then nodeData else node) prevNodes)) ;;
          match selectedNode cl with
          | Some selected =>
            if String.eqb (Node.id selected) nodeId then
              set (setSelectedNode (Some nodeData)) ;;
              if Tab_eqb (activeTab cl) TabAllocations then
                match Node.allocations nodeData with
                | Some l => refreshTotal l
                | None => ret tt
                end
              else ret tt
            else ret tt
          | None => ret tt
          end ;;
          set (setError None) ;;
          ret (Some nodeData)
        end)
       (fun errorMessage =>
          showAlert AlertError errorMessage ;;
          ret None))
    (set (setLoading false)).

(** [data.count && data.count > 0] *)
Definition blockedCount (data : ErrorBody) : option Z :=
  match countField data with
  | Some c => if negb (c =? 0) && (c >? 0) then Some c else None
  | None => None
  end.

Definition handleDelete (cl : AppState) (nodeId : string) : M unit :=
  try_catch
    (response <- fetch (DeleteNode nodeId) (fun h => deleteNode w h nodeId) ;;
     match response with
     | RespNotOk body =>
       data <- json body ;;
       match blockedCount data with
       | Some c =>
         showAlert AlertWarning
           (String.append "Cannot delete node with "
              (String.append (Js.number_to_string c) " active servers"))
       | None =>
         throw (Js.or_default (errorField data) "Failed to delete node")
       end
     | RespOk _ =>
       fetchData cl ;;
       match selectedNode cl with
       | Some selected =>
         if String.eqb (Node.id selected) nodeId
         then set (setView ViewList) ;; set (setSelectedNode None)
         else ret tt
       | None => ret tt
       end ;;
       showAlert AlertSuccess "Node deleted successfully"
     end)
    (fun errorMessage => showAlert AlertError errorMessage).

Definition handleDeleteAllocation (cl : AppState) (allocationId : string)
  : M unit :=
  match selectedNode cl with
  | None => ret tt
  | Some selected =>
    try_catch
      (response <- fetch (DeleteAllocation (Node.id selected) allocationId)
                         (fun h => deleteAllocation w h (Node.id selected)
                                                    allocationId) ;;
       match response with
       | RespNotOk body =>
         data <- json body ;;
         throw (Js.or_default (errorField data) "Failed to delete allocation")
       | RespOk _ =>
         updatedNode <- fetchSingleNode cl (Node.id selected) ;;
         match updatedNode with
         | Some updatedNode =>
           set (setSelectedNode (Some updatedNode)) ;;
           match Node.allocations updatedNode with
           | Some l =>
             let totalPages :=
               Js.ceil_div (Z.of_nat (length l))
                 (PaginationState.limit (allocationPagination cl)) in
             if (PaginationState.page (allocationPagination cl) >? totalPages)
                && (totalPages >? 0)
             then set (setAllocationPagination
                         (fun prev =>
                            PaginationState.mk totalPages
                              (PaginationState.limit prev)
                              (Z.of_nat (length l))))
             else refreshTotal l
           | None => ret tt
           end
         | None => ret tt
         end ;;
         showAlert AlertSuccess "Allocation deleted successfully" ;;
         set (setSelectedAllocations [])
       end)
      (fun errorMessage => showAlert AlertError errorMessage)
  end.

(** [handleCreateAllocation] and [handleDeleteSelected] are created inside
    [renderAllocationTab], after its [if (!selectedNode) return null]: the
    closure's selected node is a node, passed here as [selected]. *)
Definition handleCreateAllocation (cl : AppState) (selected : Node.t)
  : M unit :=
  set (setIsCreatingAllocation true) ;;
  set (setAllocationFormError None) ;;
  try_finally
    (try_catch
       (response <- fetch (PostAllocation (Node.id selected)
                                          (allocationFormData cl))
                          (fun h => postAllocation w h (Node.id selected)
                                      (allocationFormData cl)) ;;
        match response with
        | RespNotOk body =>
          data <- json body ;;
          throw (Js.or_default (errorField data)
                               "Failed to create allocation")
        | RespOk _ =>
          updatedNode <- fetchSingleNode cl (Node.id selected) ;;
          match updatedNode with
          | Some updatedNode =>
            set (setSelectedNode (Some updatedNode)) ;;
            match Node.allocations updatedNode with
            | Some l => refreshTotal l
            | None => ret tt
            end
          | None => ret tt
          end ;;
          set (setAllocationFormData
                 (AllocationFormData.mk "0.0.0.0" None None None None)) ;;
          set (setAllocationFormMode ModeSingle) ;;
          showAlert AlertSuccess "Allocation created successfully"
        end)
       (fun errorMessage =>
          set (setAllocationFormError (Some errorMessage)) ;;
          showAlert AlertError errorMessage))
    (set (setIsCreatingAllocation false)).

Definition handleDeleteSelected (cl : AppState) : M unit :=
  for_each (selectedAllocations cl)
    (fun id => try_catch (handleDeleteAllocation cl id)
                         (fun _ => ret tt)) ;;
  set (setSelectedAllocations []).

(** The allocation mutations of the tab: the submission of the create form
    (which sends the form data as they are, a single port or a port range
    alike) and the deletion of one allocation. *)
Inductive Mutation :=
| Create
| Delete (allocationId : string).

Definition mutationRequest (m : Mutation) (cl : AppState)
  (selected : Node.t) : Request :=
  match m with
  | Create => PostAllocation (Node.id selected) (allocationFormData cl)
  | Delete allocationId => DeleteAllocation (Node.id selected) allocationId
  end.

Definition mutationReply (m : Mutation) (cl : AppState)
  (selected : Node.t) (h : list Request) : Reply unit :=
  match m with
  | Create => postAllocation w h (Node.id selected) (allocationFormData cl)
  | Delete allocationId => deleteAllocation w h (Node.id selected) allocationId
  end.

Definition runMutation (m : Mutation) (cl : AppState) (selected : Node.t)
  : M unit :=
  match m with
  | Create => handleCreateAllocation cl selected
  | Delete allocationId => handleDeleteAllocation cl allocationId
  end.

End Handlers.

(** A handler started from the render of state [st], with the requests
    [h] already on the wire. *)
Definition run {A : Type} (m : M A) (st : AppState) (h : list Request)
  : Outcome A * Store :=
  m (mkStore st h).

(* ================================================================== *)
(** ** [SearchBar.tsx] *)

Module SearchBar.

Record ServerNode := mkServerNode {
  fqdn : string;
  port : Z
}.

Record Server := mkServer {
  id : string;
  name : string;
  node : option ServerNode;
  statusState : option string
}.

Record State := mkState {
  isOpen : bool;
  query : string;
  servers : list Server;
  filteredServers : list Server;
  loading : bool;
  selectedIndex : Z
}.

Definition setQuery (v : string) (s : State) :=
  mkState (isOpen s) v (servers s) (filteredServers s) (loading s)
          (selectedIndex s).

Definition setServers (v : list Server) (s : State) :=
  mkState (isOpen s) (query s) v (filteredServers s) (loading s)
          (selectedIndex s).

Definition setFilteredServers (v : list Server) (s : State) :=
  mkState (isOpen s) (query s) (servers s) v (loading s) (selectedIndex s).

Definition setSelectedIndex (v : Z) (s : State) :=
  mkState (isOpen s) (query s) (servers s) (filteredServers s) (loading s) v.

(** The callback of [servers.filter] (lines 65-68). *)
Definition matches (lowerQuery : string) (server : Server) : bool :=
  Js.includes (Js.toLowerCase (name server)) lowerQuery ||
  match node server with
  | Some n => Js.includes (Js.toLowerCase (fqdn n)) lowerQuery
  | None => false
  end.

(** The filter effect (lines 58-73), run when [query] or [servers]
    changed. *)
Definition filterEffect (s : State) : State :=
  if Js.falsy (Js.trim (query s)) then
    setFilteredServers (servers s) s
  else
    let lowerQuery := Js.toLowerCase (query s) in
    let filtered := filter (matches lowerQuery) (servers s) in
    setSelectedIndex 0 (setFilteredServers filtered s).

(** A query change ([onChange], the clear button, a selection) followed by
    the effect it triggers. *)
Definition changeQuery (q : string) (s : State) : State :=
  filterEffect (setQuery q s).

(** The state of the first render. *)
Definition initial : State := mkState false "" [] [] false 0.

(** [handleSearchKeyDown] on the arrow keys (lines 117-122). *)
Definition arrowDown (s : State) : State :=
  setSelectedIndex
    (Z.min (selectedIndex s + 1)
           (Z.of_nat (length (filteredServers s)) - 1)) s.

Definition arrowUp (s : State) : State :=
  setSelectedIndex (Z.max (selectedIndex s - 1) 0) s.

(** The server list arrives, and the effect runs on the change. *)
Definition loadServers (data : list Server) (s : State) : State :=
  filterEffect (setServers data s).

Definition setIsOpen (v : bool) (s : State) :=
  mkState v (query s) (servers s) (filteredServers s) (loading s)
          (selectedIndex s).

(** [handleServerSelect] (lines 129-133): the route handed to [navigate],
    and the state after the widget closed and the query was cleared.  The
    filter effect runs on the cleared query when that is a change of the
    query; a query that was already empty triggers nothing. *)
Definition handleServerSelect (server : Server) (s : State)
  : string * State :=
  (String.append "/servers/" (String.append (id server) "/console"),
   if String.eqb (query s) "" then setIsOpen false s
   else changeQuery "" (setIsOpen false s)).

(** What the Enter key does (lines 123-126). *)
Inductive EnterResult :=
| Ignored
| Selected (route : string) (s : State)
| SelectedUndefined.

(** [filteredServers[selectedIndex]] is [undefined] when the index is out
    of range; [handleServerSelect (undefined)] then throws a TypeError on
    [server.id], before any state is set. *)
Definition enterKey (s : State) : EnterResult :=
  if 0 <? Z.of_nat (length (filteredServers s)) then
    match Js.at_index (filteredServers s) (selectedIndex s) with
    | Some server =>
      let (route, s') := handleServerSelect server s in Selected route s'
    | None => SelectedUndefined
    end
  else Ignored.

End SearchBar.

(* ================================================================== *)
(** ** More of [AdminNodesPage]: selection, paging and the node table *)

(** [toggleAllocation] (lines 772-778). *)
Definition toggleAllocation (id : string) (s : AppState) : AppState :=
  let prev := selectedAllocations s in
  setSelectedAllocations
    (if existsb (fun allocId => String.eqb allocId id) prev
     then filter (fun allocId => negb (String.eqb allocId id)) prev
     else prev ++ [id]) s.

(** [handlePageChange] (lines 710-712). *)
Definition handlePageChange (page : Z) (s : AppState) : AppState :=
  setAllocationPagination
    (fun prev => PaginationState.with_page prev page) s.

(** The pages handed to [onPageChange] by the two chevron buttons of
    [renderPagination] (lines 638 and 674). *)
Definition previousTarget (pagination : PaginationState.t) : Z :=
  Z.max 1 (PaginationState.page pagination - 1).

Definition nextTarget (pagination : PaginationState.t) : Z :=
  Z.min (totalPages (renderPagination pagination))
        (PaginationState.page pagination + 1).

Inductive SortDirection := Asc | Desc.

(** [handleTableSort] (lines 452-459) on the two sort cells. *)
Definition handleTableSort (field : string)
  (cells : string * SortDirection) : string * SortDirection :=
  let (tableSortField, tableSortDirection) := cells in
  if String.eqb tableSortField field
  then (tableSortField,
        match tableSortDirection with Asc => Desc | Desc => Asc end)
  else (field, Asc).

Section NodeTable.

(** [String.prototype.localeCompare], which depends on the locale of the
    browser. *)
Variable localeCompare : string -> string -> Z.

(** The comparator of [getSortedNodes] (lines 462-488). *)
Definition compareNodes (servers : list Server.t) (tableSortField : string)
  (tableSortDirection : SortDirection) (a b : Node.t) : Z :=
  let comparison :=
    if String.eqb tableSortField "name"
    then localeCompare (Node.name a) (Node.name b)
    else if String.eqb tableSortField "fqdn"
    then localeCompare (Node.fqdn a) (Node.fqdn b)
    else if String.eqb tableSortField "port"
    then Node.port a - Node.port b
    else if String.eqb tableSortField "status"
    then Js.Number (Node.isOnline b) - Js.Number (Node.isOnline a)
    else if String.eqb tableSortField "servers"
    then Z.of_nat (length (nodeServers servers a))
         - Z.of_nat (length (nodeServers servers b))
    else 0 in
  match tableSortDirection with
  | Asc => comparison
  | Desc => - comparison
  end.

Definition getSortedNodes (nodes : list Node.t) (servers : list Server.t)
  (tableSortField : string) (tableSortDirection : SortDirection)
  : list Node.t :=
  Js.sort (compareNodes servers tableSortField tableSortDirection) nodes.

End NodeTable.

(* ================================================================== *)
(** ** Vocabulary of the statements *)

(** [l[i : j]] clamped to the bounds of [l]: the elements of [l] whose
    index lies in [i, j), in order. *)
Fixpoint from_index {A : Type} (k i j : Z) (l : list A) : list A :=
  match l with
  | [] => []
  | x :: t =>
    if (i <=? k) && (k <? j) then x :: from_index (k + 1) i j t
    else from_index (k + 1) i j t
  end.

Definition between {A : Type} (l : list A) (i j : Z) : list A :=
  from_index 0 i j l.

(** The same window on natural numbers. *)
Definition nslice {A : Type} (l : list A) (i j : nat) : list A :=
  firstn (j - i) (skipn i l).

(** The sum of a list of integers. *)
Fixpoint sumZ (l : list Z) : Z :=
  match l with
  | [] => 0
  | x :: t => x + sumZ t
  end.

(** A string of white space only (the empty string included). *)
Fixpoint all_space (s : string) : bool :=
  match s with
  | EmptyString => true
  | String c t => Js.is_space c && all_space t
  end.

(** [k] is the ceiling of [total / limit]. *)
Definition is_ceiling (total limit k : Z) : Prop :=
  (k - 1) * limit < total <= k * limit.

(** The integers [a, a+1, ..., b]. *)
Definition Zrange (a b : Z) : list Z :=
  map (fun i => a + Z.of_nat i) (seq 0 (Z.to_nat (b - a + 1))).

(** The rows that page [p] of size [L] shows for a node. *)
Definition pageRows (node : Node.t) (L p : Z) : list Allocation.t :=
  match renderAllocationTab (Some node)
          (PaginationState.mk p L
             (Z.of_nat (length (allocationsOf node)))) with
  | Some v => displayed v
  | None => []
  end.

(** The pages [1 .. ceil (total / L)]. *)
Definition pageNumbers (total L : Z) : list Z :=
  map Z.of_nat (seq 1 (Z.to_nat (Js.ceil_div total L))).

(** The outcome of a status probe: the snapshot when the probe succeeds,
    nothing when it fails. *)
Definition snapshot (r : Reply SystemState.t) : option SystemState.t :=
  match r with
  | Fulfilled (RespOk (Parsed s)) => Some s
  | _ => None
  end.

Definition probeRequest (node : Node.t) : Request :=
  GetState (Node.fqdn node) (Node.port node).

(** A node after the probes of a refresh, when [history] is the request
    log at the moment its own probe leaves: every field as before, except
    that an online node carries the snapshot of the reply to that probe. *)
Definition probedNode (w : World) (history : list Request)
  (before : Node.t) : Node.t :=
  Node.mk (Node.id before) (Node.name before) (Node.fqdn before)
    (Node.port before) (Node.isOnline before) (Node.lastChecked before)
    (Node.createdAt before) (Node.updatedAt before)
    (if Node.isOnline before
     then snapshot (getState w history (Node.fqdn before) (Node.port before))
     else Node.systemState before)
    (Node.connectionKey before) (Node.allocations before)
    (Node.resources before).

(** One step of a bulk deletion on the wire: the deletion request, then
    the refresh of the node when the deletion went through. *)
Definition deletionSegment (nodeId allocationId : string)
  (seg : list Request) : Prop :=
  seg = [DeleteAllocation nodeId allocationId] \/
  seg = [DeleteAllocation nodeId allocationId; GetNode nodeId].

(** The page-button numbering as the specification words it. *)
Definition numbering_as_claimed (pagination : PaginationState.t) : Prop :=
  let v := renderPagination pagination in
  let current := PaginationState.page pagination in
  let tp := totalPages v in
  (length (pageButtons v) <= 5)%nat /\
  (if (1 <=? current - 2) && (current + 2 <=? tp)
   then pageButtons v = Zrange (current - 2) (current + 2)
   else if current <=? 3 then pageButtons v = Zrange 1 5
   else if current >=? tp - 2 then pageButtons v = Zrange (tp - 4) tp
   else True) /\
  In current (pageButtons v).

(** The message a command handler throws for a reply that did not go
    through (the body of a successful response is not read): nothing for a
    successful response. *)
Definition refusal {A : Type} (r : Reply A) (fallback : string)
  : option string :=
  match r with
  | FetchRejected e => Some e
  | Fulfilled (RespNotOk (Parsed data)) =>
    Some (Js.or_default (errorField data) fallback)
  | Fulfilled (RespNotOk (Unparsable e)) => Some e
  | Fulfilled (RespOk _) => None
  end.

(** The same for a read, whose successful response must also parse. *)
Definition readFailure {A : Type} (r : Reply A) (fallback : string)
  : option string :=
  match r with
  | Fulfilled (RespOk (Unparsable e)) => Some e
  | Fulfilled (RespOk (Parsed _)) => None
  | _ => refusal r fallback
  end.

(** The state with one more notice. *)
Definition withNotice (type : AlertType) (message : string)
  (s : AppState) : AppState :=
  setAlerts (fun prev => prev ++ [mkAlert type message]) s.

(** The index of the search widget points into the result list. *)
Definition index_in_range (s : SearchBar.State) : Prop :=
  0 <= SearchBar.selectedIndex s
  < Z.of_nat (length (SearchBar.filteredServers s)).

(** The notice shown when a node deletion is blocked by [c] workloads. *)
Definition blockedMessage (c : Z) : string :=
  String.append "Cannot delete node with "
    (String.append (Js.number_to_string c) " active servers").

(** Equality of two explicit lists of integers, entry by entry. *)
Ltac elementwise :=
  repeat (match goal with
          | |- _ :: _ = _ :: _ => apply (f_equal2 cons); [lia|]
          end);
  reflexivity.

(** Unfolding of the handler monad down to pairs of outcome and store. *)
Ltac run_handler :=
  cbv beta iota delta
    [run try_catch try_finally bind fetch fetch_start await json
     ret throw set showAlert refreshTotal log ui fst snd].

(** Case analysis on whatever a handler branches on next. *)
Ltac branch_handler :=
  repeat (run_handler;
          match goal with
          | |- context [match ?x with _ => _ end] =>
            lazymatch x with
            | context [match _ with _ => _ end] => fail
            | _ => destruct x
            end
          end);
  run_handler.

(* ================================================================== *)
(** ** Sample data *)

Definition sampleAllocation (n : nat) (assigned : bool) : Allocation.t :=
  Allocation.mk (Js.number_to_string (Z.of_nat n)) "n1"
    (25565 + Z.of_nat n) "0.0.0.0" None None assigned "" "".

Definition sampleNode (online : bool)
  (allocations : option (list Allocation.t)) : Node.t :=
  Node.mk "n1" "node-1" "node1.example.com" 8080 online "" "" ""
    None None allocations None.

Definition otherNode (online : bool) : Node.t :=
  Node.mk "n2" "node-2" "node2.example.com" 8080 online "" "" ""
    None None None None.

(** 3 assigned and 12 unassigned allocations, interleaved. *)
Definition mixedPool : list Allocation.t :=
  map (fun n => sampleAllocation n (Nat.eqb (Nat.modulo n 5) 0))
      (seq 0 15).

(** 11 unassigned allocations. *)
Definition elevenFree : list Allocation.t :=
  map (fun n => sampleAllocation n false) (seq 0 11).

Definition sampleSnapshot : SystemState.t :=
  SystemState.mk "1.0.0" "6.1" "Debian 12" "node1" 8 17179869184 3 2 1.

Definition sampleServer (id nodeId : string) (cpu mem : Z)
  (disk : option Z) : Server.t :=
  Server.mk id id id "running" cpu mem disk "u1" "running"
    (Node.mk nodeId nodeId nodeId 8080 true "" "" "" None None None None).

(** The state of the first render. *)
Definition initialState : AppState :=
  mkAppState [] [] true None ViewList None false [] TabOverview
    (AllocationFormData.mk "0.0.0.0" None None None None) ModeSingle None []
    (PaginationState.mk 1 10 0).

(** The allocations tab of [node], on page [page], with [selection]
    ticked. *)
Definition viewing (node : Node.t) (page total : Z)
  (selection : list string) : AppState :=
  mkAppState [node] [] false None ViewView (Some node) false selection
    TabAllocations (AllocationFormData.mk "0.0.0.0" None None None None)
    ModeSingle None [] (PaginationState.mk page 10 total).

(** The same state with the create form filled in for a port range. *)
Definition withRangeForm (first last : Z) (st : AppState) : AppState :=
  setAllocationFormMode ModeRange
    (setAllocationFormData
       (AllocationFormData.mk "0.0.0.0" None (Some (first, last)) None None)
       st).

(** The same state with the create form filled in for a single port. *)
Definition withPortForm (port : Z) (st : AppState) : AppState :=
  setAllocationFormData
    (AllocationFormData.mk "0.0.0.0" (Some port) None None None) st.

(** A panel that accepts every command and reports [node] on every read;
    the daemon of node-1 answers with a snapshot, every other probe is
    refused with an HTTP error. *)
Definition steadyWorld (node : Node.t) : World :=
  mkWorld
    (fun _ => Fulfilled (RespOk (Parsed [node; otherNode true])))
    (fun _ => Fulfilled (RespOk (Parsed [])))
    (fun _ _ => Fulfilled (RespOk (Parsed node)))
    (fun _ _ => Fulfilled (RespOk (Parsed tt)))
    (fun _ _ _ => Fulfilled (RespOk (Parsed tt)))
    (fun _ _ _ => Fulfilled (RespOk (Parsed tt)))
    (fun _ fqdn _ =>
       if String.eqb fqdn "node1.example.com"
       then Fulfilled (RespOk (Parsed sampleSnapshot))
       else Fulfilled (RespNotOk (Parsed (mkErrorBody None None)))).

(** A panel that refuses to delete nodes, reporting [count] active
    servers, and whose allocation deletions fail on the network. *)
Definition refusingWorld (count : option Z) : World :=
  mkWorld
    (fun _ => Fulfilled (RespOk (Parsed [])))
    (fun _ => Fulfilled (RespOk (Parsed [])))
    (fun _ _ => FetchRejected "Failed to fetch")
    (fun _ _ => Fulfilled (RespNotOk
                  (Parsed (mkErrorBody (Some "Node has servers") count))))
    (fun _ _ _ => FetchRejected "Failed to fetch")
    (fun _ _ _ => FetchRejected "Failed to fetch")
    (fun _ _ _ => FetchRejected "Failed to fetch").

(** Page 2 of a node with 11 allocations: the page shows the last one. *)
Definition lastOfEleven : AppState :=
  viewing (sampleNode true (Some elevenFree)) 2 11 [].

(** Page 1 of the same node. *)
Definition firstOfEleven : AppState :=
  viewing (sampleNode true (Some elevenFree)) 1 11 [].

(** Page 1 of the same node, with two allocations ticked. *)
Definition twoTicked : AppState :=
  viewing (sampleNode true (Some elevenFree)) 1 11 ["1"; "2"].

(** The panel after the other allocations were removed elsewhere: the
    refreshed node has an empty allocation list. *)
Definition emptiedWorld : World := steadyWorld (sampleNode true (Some [])).

(** A panel whose node list cannot be reached. *)
Definition nodesDownWorld : World :=
  mkWorld
    (fun _ => FetchRejected "offline")
    (fun _ => Fulfilled (RespOk (Parsed [])))
    (fun _ _ => Fulfilled (RespOk (Parsed (otherNode true))))
    (fun _ _ => Fulfilled (RespOk (Parsed tt)))
    (fun _ _ _ => Fulfilled (RespOk (Parsed tt)))
    (fun _ _ _ => Fulfilled (RespOk (Parsed tt)))
    (fun _ _ _ => FetchRejected "offline").

(** A panel that cannot be reached at all. *)
Definition offlineWorld : World :=
  mkWorld
    (fun _ => FetchRejected "offline")
    (fun _ => FetchRejected "offline")
    (fun _ _ => FetchRejected "offline")
    (fun _ _ => FetchRejected "offline")
    (fun _ _ _ => FetchRejected "offline")
    (fun _ _ _ => FetchRejected "offline")
    (fun _ _ _ => FetchRejected "offline").

(** An online node that the panel reports with an old system state, and
    whose daemon does not answer. *)
Definition staleNode : Node.t :=
  Node.mk "n3" "node-3" "node3.example.com" 8080 true "" "" ""
    (Some sampleSnapshot) None None None.

(** A panel with three nodes: node-1 online and answering, node-3 online
    and not answering, node-2 offline. *)
Definition fleetWorld : World :=
  mkWorld
    (fun _ => Fulfilled (RespOk (Parsed [sampleNode true None; staleNode;
                                         otherNode false])))
    (fun _ => Fulfilled (RespOk (Parsed [])))
    (fun _ _ => Fulfilled (RespOk (Parsed (sampleNode true None))))
    (fun _ _ => Fulfilled (RespOk (Parsed tt)))
    (fun _ _ _ => Fulfilled (RespOk (Parsed tt)))
    (fun _ _ _ => Fulfilled (RespOk (Parsed tt)))
    (fun _ fqdn _ =>
       if String.eqb fqdn "node1.example.com"
       then Fulfilled (RespOk (Parsed sampleSnapshot))
       else FetchRejected "Failed to fetch").

Definition searchServers : list SearchBar.Server :=
  [ SearchBar.mkServer "s1" "Alpha"
      (Some (SearchBar.mkServerNode "eu.example.com" 8080)) None;
    SearchBar.mkServer "s2" "Beta" None None;
    SearchBar.mkServer "s3" "Gamma"
      (Some (SearchBar.mkServerNode "alpha.example.com" 8080)) None ].

(** The widget after the list arrived, the user typed "a" and pressed the
    down arrow twice. *)
Definition searchedTwiceDown : SearchBar.State :=
  SearchBar.arrowDown
    (SearchBar.arrowDown
       (SearchBar.changeQuery "a"
          (SearchBar.loadServers searchServers SearchBar.initial))).

(* ================================================================== *)
(** * Windows on lists *)

Section Windows.

Context {A : Type}.

Lemma nslice_from_index (l : list A) : forall k i j,
  from_index k i j l = nslice l (Z.to_nat (i - k)) (Z.to_nat (j - k)).
Proof.
  induction l as [|x t IH]; intros k i j.
  - unfold nslice. simpl. now rewrite skipn_nil, firstn_nil.
  - simpl. rewrite IH. unfold nslice.
    destruct (i <=? k) eqn:Hi; destruct (k <? j) eqn:Hj; simpl;
      try apply Z.leb_le in Hi; try apply Z.leb_gt in Hi;
      try apply Z.ltb_lt in Hj; try apply Z.ltb_ge in Hj.
    + replace (Z.to_nat (i - (k + 1))) with 0%nat by lia.
      replace (Z.to_nat (i - k)) with 0%nat by lia.
      replace (Z.to_nat (j - k)) with (S (Z.to_nat (j - (k + 1)))) by lia.
      simpl. now rewrite Nat.sub_0_r.
    + replace (Z.to_nat (j - (k + 1))) with 0%nat by lia.
      replace (Z.to_nat (j - k)) with 0%nat by lia.
      reflexivity.
    + replace (Z.to_nat (i - k)) with (S (Z.to_nat (i - (k + 1)))) by lia.
      simpl. f_equal. lia.
    + replace (Z.to_nat (i - k)) with (S (Z.to_nat (i - (k + 1)))) by lia.
      simpl. f_equal. lia.
Qed.

Lemma between_nslice (l : list A) (i j : Z) :
  between l i j = nslice l (Z.to_nat i) (Z.to_nat j).
Proof.
  unfold between. rewrite nslice_from_index. now rewrite !Z.sub_0_r.
Qed.

Lemma slice_nslice (l : list A) (s e : Z) :
  0 <= s -> 0 <= e ->
  Js.slice l s e = nslice l (Z.to_nat s) (Z.to_nat e).
Proof.
  intros Hs He. unfold Js.slice, Js.rel_index, nslice.
  destruct (s <? 0) eqn:Es; [apply Z.ltb_lt in Es; lia|].
  destruct (e <? 0) eqn:Ee; [apply Z.ltb_lt in Ee; lia|].
  destruct (Z_le_gt_dec (Z.of_nat (length l)) s) as [Hout|Hin].
  - rewrite !(skipn_all2 l) by lia. now rewrite !firstn_nil.
  - replace (Z.min s (Z.of_nat (length l))) with s by lia.
    destruct (Z_le_gt_dec e (Z.of_nat (length l))) as [Hlo|Hhi].
    + f_equal. lia.
    + rewrite !firstn_all2; try reflexivity; rewrite length_skipn; lia.
Qed.

Lemma slice_between (l : list A) (s e : Z) :
  0 <= s -> 0 <= e -> Js.slice l s e = between l s e.
Proof.
  intros. now rewrite slice_nslice, between_nslice.
Qed.

Lemma nslice_clamp (l : list A) (i j : nat) :
  nslice l i (Nat.min (length l) j) = nslice l i j.
Proof.
  unfold nslice.
  destruct (Nat.le_gt_cases j (length l)) as [H|H].
  - now rewrite Nat.min_r by lia.
  - rewrite Nat.min_l by lia.
    rewrite !firstn_all2; try reflexivity; rewrite length_skipn; lia.
Qed.

Lemma nslice_past (l : list A) (i j : nat) :
  (length l <= i)%nat -> nslice l i j = [].
Proof.
  intros H. unfold nslice. rewrite skipn_all2 by lia. apply firstn_nil.
Qed.

Lemma nslice_empty (l : list A) (i : nat) : nslice l i 0 = [].
Proof. reflexivity. Qed.

Lemma nslice_app (a u : list A) (i j : nat) :
  (i <= j)%nat ->
  nslice a i j ++ nslice u (i - length a) (j - length a)
  = nslice (a ++ u) i j.
Proof.
  intros Hij. unfold nslice.
  rewrite skipn_app, firstn_app, length_skipn.
  f_equal. f_equal. lia.
Qed.

Lemma firstn_plus (l : list A) : forall n m,
  firstn (n + m) l = firstn n l ++ firstn m (skipn n l).
Proof.
  induction l as [|x t IH]; intros n m.
  - now rewrite skipn_nil, !firstn_nil.
  - destruct n as [|n]; simpl; [reflexivity|]. now rewrite IH.
Qed.

Lemma chunks_firstn (l : list A) (size : nat) : forall n,
  concat (map (fun i => nslice l (i * size) (S i * size)) (seq 0 n))
  = firstn (n * size) l.
Proof.
  induction n as [|n IH].
  - reflexivity.
  - rewrite seq_S, map_app, concat_app, IH. simpl.
    rewrite app_nil_r. unfold nslice.
    replace (size + n * size - n * size)%nat with size by lia.
    replace (size + n * size)%nat with (n * size + size)%nat by lia.
    now rewrite firstn_plus.
Qed.

Lemma partition_perm (f : A -> bool) (l : list A) :
  Permutation l (filter f l ++ filter (fun x => negb (f x)) l).
Proof.
  induction l as [|x t IH]; simpl.
  - constructor.
  - destruct (f x); simpl.
    + now constructor.
    + now apply Permutation_cons_app.
Qed.

Lemma partition_length (f : A -> bool) (l : list A) :
  length (filter f l ++ filter (fun x => negb (f x)) l) = length l.
Proof.
  symmetry. apply Permutation_length, partition_perm.
Qed.

End Windows.

Example number_to_string_examples :
  Js.number_to_string 0 = "0" /\
  Js.number_to_string 25565 = "25565" /\
  Js.number_to_string (-7) = "-7".
Proof. repeat split. Qed.

Example slice_examples :
  Js.slice [1; 2; 3; 4; 5] 1 3 = [2; 3] /\
  Js.slice [1; 2; 3; 4; 5] 3 10 = [4; 5] /\
  Js.slice [1; 2; 3; 4; 5] 7 10 = [] /\
  Js.slice [1; 2; 3; 4; 5] (-2) 5 = [4; 5] /\
  Js.slice [1; 2; 3; 4; 5] 3 1 = [].
Proof. repeat split. Qed.

(* ================================================================== *)
(** * Integer ceilings and ranges *)

Lemma ceil_div_spec (a b : Z) :
  0 < b -> is_ceiling a b (Js.ceil_div a b).
Proof.
  intros Hb. unfold is_ceiling, Js.ceil_div.
  pose proof (Z.div_mod (- a) b ltac:(lia)) as Hdm.
  pose proof (Z.mod_pos_bound (- a) b Hb) as Hm.
  nia.
Qed.

Lemma is_ceiling_unique (a b k k' : Z) :
  0 < b -> is_ceiling a b k -> is_ceiling a b k' -> k = k'.
Proof.
  unfold is_ceiling. intros Hb H H'. nia.
Qed.

Lemma ceil_div_nonneg (a b : Z) : 0 < b -> 0 <= a -> 0 <= Js.ceil_div a b.
Proof.
  intros Hb Ha. pose proof (ceil_div_spec a b Hb) as H.
  unfold is_ceiling in H. nia.
Qed.

Lemma ceil_div_zero (b : Z) : Js.ceil_div 0 b = 0.
Proof. reflexivity. Qed.

(* ================================================================== *)
(** * The partitioned pager *)

Lemma is_nonempty_iff {A : Type} (l : list A) :
  is_nonempty l = true <-> l <> [].
Proof.
  unfold is_nonempty. destruct l; simpl; split; intros H;
    try discriminate; try congruence; reflexivity.
Qed.

Lemma rendered_iff {A : Type} (c : bool) (l : list A) :
  (if c then Some l else None) <> None <-> c = true.
Proof. destruct c; split; intros H; congruence. Qed.

Lemma rows_of_group (c : bool) (l : list Allocation.t) :
  (c = false -> l = []) -> rows (if c then Some l else None) = l.
Proof. destruct c; simpl; intros H; [reflexivity | symmetry; now apply H]. Qed.

(** The rows of both groups are the two slices, also on a page on which a
    group is not rendered: its slice is empty there. *)
Lemma displayed_slices (node : Node.t) (pagination : PaginationState.t)
  (v : AllocationTabView) :
  0 <= (PaginationState.page pagination - 1) * PaginationState.limit pagination ->
  0 <= PaginationState.page pagination * PaginationState.limit pagination ->
  renderAllocationTab (Some node) pagination = Some v ->
  rows (inUseGroup v) = paginatedAssigned v /\
  rows (availableGroup v) = paginatedUnassigned v.
Proof.
  intros Hs He Hv. injection Hv as <-. simpl. split.
  - apply rows_of_group. intros Hc.
    rewrite slice_nslice by assumption.
    apply andb_false_iff in Hc. destruct Hc as [Hc|Hc].
    + apply Z.ltb_ge in Hc. apply nslice_past. lia.
    + unfold is_nonempty in Hc. apply Z.ltb_ge in Hc.
      apply nslice_past. lia.
  - apply rows_of_group. intros Hc.
    rewrite slice_nslice by lia.
    apply andb_false_iff in Hc. destruct Hc as [Hc|Hc].
    + rewrite Z.gtb_ltb in Hc. apply Z.ltb_ge in Hc.
      match goal with
      | |- nslice _ _ ?j = _ => replace j with 0%nat by lia
      end.
      apply nslice_empty.
    + unfold is_nonempty in Hc. apply Z.ltb_ge in Hc.
      apply nslice_past. lia.
Qed.

(** C1.  For a page number of at least 1 and a page size of at least 1, with
    start = (page-1)*limit and end = page*limit: the assigned slice is
    assigned[max(0,start) : min(assignedCount,end)], the unassigned slice is
    unassigned[max(0,start-assignedCount) : max(0,end-assignedCount)], both
    clamped to the bounds of their list and both exactly the rows put on the
    screen; the "In Use" group is rendered iff start < assignedCount and the
    assigned subset is not empty, the "Available" group iff
    end > assignedCount and the unassigned subset is not empty. *)
Theorem allocation_page_windows (node : Node.t)
  (pagination : PaginationState.t) :
  1 <= PaginationState.page pagination ->
  1 <= PaginationState.limit pagination ->
  let assigned := filter Allocation.assigned (allocationsOf node) in
  let unassigned :=
    filter (fun a => negb (Allocation.assigned a)) (allocationsOf node) in
  let assignedCount := Z.of_nat (length assigned) in
  let start :=
    (PaginationState.page pagination - 1) * PaginationState.limit pagination in
  let stop :=
    PaginationState.page pagination * PaginationState.limit pagination in
  exists v,
    renderAllocationTab (Some node) pagination = Some v /\
    assignedAllocations v = assigned /\
    unassignedAllocations v = unassigned /\
    paginatedAssigned v
      = between assigned (Z.max 0 start) (Z.min assignedCount stop) /\
    paginatedUnassigned v
      = between unassigned (Z.max 0 (start - assignedCount))
                           (Z.max 0 (stop - assignedCount)) /\
    rows (inUseGroup v) = paginatedAssigned v /\
    rows (availableGroup v) = paginatedUnassigned v /\
    (inUseGroup v <> None <-> start < assignedCount /\ assigned <> []) /\
    (availableGroup v <> None <-> stop > assignedCount /\ unassigned <> []).
Proof.
  intros Hp Hl assigned unassigned assignedCount start stop.
  assert (Hs : 0 <= start) by (unfold start; nia).
  assert (He : 0 <= stop) by (unfold stop; nia).
  destruct (renderAllocationTab (Some node) pagination) as [v|] eqn:Hv;
    [|discriminate].
  exists v. split; [reflexivity|].
  destruct (displayed_slices node pagination v Hs He Hv) as [Hin Hav].
  injection Hv as <-.
  cbn [paginatedAssigned paginatedUnassigned inUseGroup availableGroup
       assignedAllocations unassignedAllocations] in *.
  fold assigned unassigned. fold assignedCount. fold start stop.
  split; [reflexivity|]. split; [reflexivity|].
  split.
  { rewrite slice_nslice, between_nslice by assumption.
    replace (Z.max 0 start) with start by lia.
    replace (Z.to_nat (Z.min assignedCount stop))
      with (Nat.min (length assigned) (Z.to_nat stop)) by lia.
    now rewrite nslice_clamp. }
  split; [apply slice_between; lia|].
  split; [exact Hin|]. split; [exact Hav|].
  split.
  - rewrite rendered_iff, andb_true_iff, Z.ltb_lt, is_nonempty_iff.
    reflexivity.
  - rewrite rendered_iff, andb_true_iff, Z.gtb_ltb, Z.ltb_lt,
      is_nonempty_iff.
    split; intros [H1 H2]; split; try assumption; lia.
Qed.

Lemma allocation_page_windows_witness :
  exists v,
    renderAllocationTab (Some (sampleNode true (Some mixedPool)))
                        (PaginationState.mk 1 10 15) = Some v /\
    length (paginatedAssigned v) = 3%nat /\
    length (paginatedUnassigned v) = 7%nat /\
    inUseGroup v <> None /\ availableGroup v <> None.
Proof.
  destruct (allocation_page_windows (sampleNode true (Some mixedPool))
              (PaginationState.mk 1 10 15))
    as (v & Hv & _ & _ & Ha & Hu & _ & _ & Hin & Hav);
    [simpl; lia | simpl; lia |].
  exists v. split; [exact Hv|].
  split; [rewrite Ha; reflexivity|].
  split; [rewrite Hu; reflexivity|].
  split.
  - apply Hin. split; [reflexivity | discriminate].
  - apply Hav. split; [reflexivity | discriminate].
Defined.

(** Page [p] shows the window [(p-1)*L, p*L) of the concatenation
    assigned ++ unassigned. *)
Lemma pageRows_window (node : Node.t) (L p : Z) :
  1 <= L -> 1 <= p ->
  pageRows node L p
  = nslice (filter Allocation.assigned (allocationsOf node)
            ++ filter (fun a => negb (Allocation.assigned a))
                      (allocationsOf node))
           (Z.to_nat ((p - 1) * L)) (Z.to_nat (p * L)).
Proof.
  intros HL Hp. unfold pageRows.
  set (pagination := PaginationState.mk p L _).
  assert (Hs : 0 <= (p - 1) * L) by nia.
  assert (He : 0 <= p * L) by nia.
  destruct (renderAllocationTab (Some node) pagination) as [v|] eqn:Hv;
    [|discriminate].
  destruct (displayed_slices node pagination v Hs He Hv) as [Hin Hav].
  unfold displayed. rewrite Hin, Hav. injection Hv as <-.
  cbn [paginatedAssigned paginatedUnassigned PaginationState.page
       PaginationState.limit pagination].
  rewrite !slice_nslice by lia.
  rewrite <- nslice_app by nia.
  f_equal. f_equal; lia.
Qed.

(** C2.  For a page size of at least 1, the rows of the pages
    1 .. ceil(total/L), concatenated in page order, are the whole assigned
    subset followed by the whole unassigned subset, each in its original
    order, hence every allocation of the pool exactly once.  With 3
    assigned and 12 unassigned allocations and L = 10: page 1 shows the 3
    assigned and the first 7 unassigned, page 2 the remaining 5, the total
    is 15 and there are 2 pages. *)
Theorem pages_cover_pool (node : Node.t) (L : Z) :
  1 <= L ->
  let allocations := allocationsOf node in
  let assigned := filter Allocation.assigned allocations in
  let unassigned :=
    filter (fun a => negb (Allocation.assigned a)) allocations in
  let total := Z.of_nat (length allocations) in
  let shown := concat (map (pageRows node L) (pageNumbers total L)) in
  shown = assigned ++ unassigned /\
  Permutation allocations shown /\
  (L = 10 -> length assigned = 3%nat -> length unassigned = 12%nat ->
   pageRows node L 1 = assigned ++ firstn 7 unassigned /\
   pageRows node L 2 = skipn 7 unassigned /\
   length (skipn 7 unassigned) = 5%nat /\
   total = 15 /\
   pageNumbers total L = [1; 2] /\
   totalPages (renderPagination (PaginationState.mk 1 L total)) = 2).
Proof.
  intros HL allocations assigned unassigned total shown.
  assert (Hlen : length (assigned ++ unassigned) = length allocations)
    by apply partition_length.
  assert (Hshown : shown = assigned ++ unassigned).
  { unfold shown, pageNumbers.
    rewrite <- seq_shift, !map_map.
    rewrite (map_ext _ (fun i => nslice (assigned ++ unassigned)
                                   (i * Z.to_nat L) (S i * Z.to_nat L))).
    - rewrite chunks_firstn. apply firstn_all2. rewrite Hlen.
      pose proof (ceil_div_spec total L ltac:(lia)) as Hc.
      unfold is_ceiling in Hc. fold total.
      pose proof (ceil_div_nonneg total L ltac:(lia) ltac:(lia)) as Hn.
      rewrite <- Z2Nat.inj_mul by lia. lia.
    - intros i. rewrite pageRows_window by lia.
      fold allocations. fold assigned unassigned.
      f_equal; rewrite Z2Nat.inj_mul by lia; f_equal; lia. }
  split; [exact Hshown|].
  split; [rewrite Hshown; apply partition_perm|].
  intros -> Ha Hu.
  assert (Htotal : total = 15).
  { unfold total. rewrite <- Hlen, length_app, Ha, Hu. reflexivity. }
  rewrite !pageRows_window by lia.
  fold allocations. fold assigned unassigned. unfold nslice.
  rewrite Htotal.
  change (Z.to_nat ((1 - 1) * 10)) with 0%nat.
  change (Z.to_nat (1 * 10)) with 10%nat.
  change (Z.to_nat ((2 - 1) * 10)) with 10%nat.
  change (Z.to_nat (2 * 10)) with 20%nat.
  change (10 - 0)%nat with 10%nat. change (20 - 10)%nat with 10%nat.
  rewrite skipn_0, firstn_app, skipn_app, Ha.
  rewrite (firstn_all2 assigned) by lia.
  rewrite (skipn_all2 assigned) by lia.
  change (10 - 3)%nat with 7%nat. rewrite app_nil_l.
  assert (H5 : length (skipn 7 unassigned) = 5%nat)
    by (rewrite length_skipn, Hu; reflexivity).
  rewrite (firstn_all2 (skipn 7 unassigned)) by lia.
  repeat split; try reflexivity. exact H5.
Qed.

Lemma pages_cover_pool_witness :
  concat (map (pageRows (sampleNode true (Some mixedPool)) 10)
              (pageNumbers 15 10))
  = filter Allocation.assigned mixedPool
    ++ filter (fun a => negb (Allocation.assigned a)) mixedPool /\
  length (pageRows (sampleNode true (Some mixedPool)) 10 2) = 5%nat.
Proof.
  destruct (pages_cover_pool (sampleNode true (Some mixedPool)) 10)
    as (Hcover & _ & Hscenario); [lia|].
  split; [exact Hcover|].
  destruct (Hscenario eq_refl eq_refl eq_refl) as (_ & H2 & H5 & _).
  rewrite H2. exact H5.
Defined.

(* ================================================================== *)
(** * The node resource aggregation *)

Lemma fold_sum_acc {A : Type} (f : A -> Z) (l : list A) : forall acc,
  fold_left (fun sum s => sum + f s) l acc = acc + sumZ (map f l).
Proof.
  induction l as [|x t IH]; intros acc; simpl.
  - lia.
  - rewrite IH. lia.
Qed.

Lemma reduce_sum_sumZ {A : Type} (f : A -> Z) (l : list A) :
  reduce_sum f l = sumZ (map f l).
Proof. unfold reduce_sum. now rewrite fold_sum_acc. Qed.

Lemma or_zero_value (x : option Z) :
  Js.or_zero x = match x with Some d => d | None => 0 end.
Proof.
  destruct x as [d|]; simpl; [|reflexivity].
  destruct (d =? 0) eqn:E; [apply Z.eqb_eq in E; lia | reflexivity].
Qed.

(** A reduce that adds one term per element is the in-order sum, from the
    initial value, of the terms: this holds for any addition, with no law
    of arithmetic, so also for the rounding addition of JavaScript. *)
Lemma reduce_in_order {A N : Type} (add : N -> N -> N) (f : A -> N)
  (arr : list A) : forall zero,
  fold_left (fun sum s => add sum (f s)) arr zero
  = fold_left add (map f arr) zero.
Proof.
  induction arr as [|x t IH]; intros zero; simpl; [reflexivity|].
  apply IH.
Qed.

(** C5.  On a refresh every node of the list comes out, in place, with all
    its fields as reported and with resources computed from the workloads
    whose node id is the node's id, taken in list order: cpuAllocated is
    the sum of their cpuPercent, memoryAllocated the sum of their memoryMiB
    times 1024 times 1024, diskAllocated the sum of their diskMiB (0 when
    absent) times 1024 times 1024, each sum accumulated from 0 in list
    order. *)
Theorem node_resources (nodesData : list Node.t)
  (serversData : list Server.t) :
  let bound (node : Node.t) :=
    filter (fun s => if string_dec (Node.id (Server.node s)) (Node.id node)
                     then true else false) serversData in
  let sum (terms : list Z) := fold_left Z.add terms 0 in
  nodesWithResources nodesData serversData
  = map (fun node =>
           Node.mk (Node.id node) (Node.name node) (Node.fqdn node)
             (Node.port node) (Node.isOnline node) (Node.lastChecked node)
             (Node.createdAt node) (Node.updatedAt node)
             (Node.systemState node) (Node.connectionKey node)
             (Node.allocations node)
             (Some
                (Resources.mk
                   (sum (map (fun s => Server.memoryMiB s * 1024 * 1024)
                             (bound node)))
                   (sum (map (fun s => match Server.diskMiB s with
                                       | Some d => d
                                       | None => 0
                                       end * 1024 * 1024) (bound node)))
                   (sum (map Server.cpuPercent (bound node))))))
        nodesData.
Proof.
  intros bound sum. unfold nodesWithResources.
  apply map_ext. intros node.
  unfold withResources, Node.with_resources, reduce_sum, sum.
  assert (Hb : nodeServers serversData node = bound node).
  { unfold nodeServers, bound. apply filter_ext. intros s.
    destruct (string_dec _ _) as [E|E].
    - now apply String.eqb_eq.
    - now apply String.eqb_neq. }
  rewrite Hb.
  rewrite (reduce_in_order Z.add
             (fun s => Server.memoryMiB s * 1024 * 1024)).
  rewrite (reduce_in_order Z.add
             (fun s => Js.or_zero (Server.diskMiB s) * 1024 * 1024)).
  rewrite (reduce_in_order Z.add (fun s => Server.cpuPercent s)).
  assert (Hd : map (fun s => Js.or_zero (Server.diskMiB s) * 1024 * 1024)
                   (bound node)
               = map (fun s => match Server.diskMiB s with
                               | Some d => d
                               | None => 0
                               end * 1024 * 1024) (bound node))
    by (apply map_ext; intros s; now rewrite or_zero_value).
  rewrite Hd. reflexivity.
Qed.

Lemma node_resources_witness :
  map Node.resources
      (nodesWithResources
         [sampleNode true None; otherNode false]
         [sampleServer "s1" "n1" 50 1024 None;
          sampleServer "s2" "n2" 80 4096 (Some 500);
          sampleServer "s3" "n1" 25 512 (Some 10)])
  = [Some (Resources.mk (1536 * 1048576) (10 * 1048576) 75);
     Some (Resources.mk (4096 * 1048576) (500 * 1048576) 80)].
Proof.
  rewrite (node_resources
             [sampleNode true None; otherNode false]
             [sampleServer "s1" "n1" 50 1024 None;
              sampleServer "s2" "n2" 80 4096 (Some 500);
              sampleServer "s3" "n1" 25 512 (Some 10)]).
  reflexivity.
Defined.

Example node_resources_example :
  Node.resources
    (withResources
       [sampleServer "s1" "n1" 50 1024 None;
        sampleServer "s2" "n2" 80 4096 (Some 500);
        sampleServer "s3" "n1" 25 512 (Some 10)]
       (sampleNode true None))
  = Some (Resources.mk (1536 * 1048576) (10 * 1048576) 75).
Proof. reflexivity. Qed.

(* ================================================================== *)
(** * The paging control *)

Lemma Zrange_five (a b : Z) :
  b = a + 4 -> Zrange a b = [a; a + 1; a + 2; a + 3; a + 4].
Proof.
  intros ->. unfold Zrange.
  replace (Z.to_nat (a + 4 - a + 1)) with 5%nat by lia.
  simpl. now rewrite Z.add_0_r.
Qed.

Lemma array_from_five {A : Type} (f : Z -> A) :
  Js.array_from 5 f = [f 0; f 1; f 2; f 3; f 4].
Proof. reflexivity. Qed.

Lemma array_from_length {A : Type} (n : Z) (f : Z -> A) :
  length (Js.array_from n f) = Z.to_nat n.
Proof. unfold Js.array_from. now rewrite length_map, length_seq. Qed.

(** C9, as the code has it.  For a page size of at least 1: the number of
    pages is ceil(total/limit), and 1 when that is smaller (so 1 when total
    is 0); at most 5 page buttons are rendered; with at most 5 pages the
    buttons are 1 .. totalPages; with more than 5 pages they are
    current-2 .. current+2 when that range lies within 1 .. totalPages,
    1 .. 5 when current <= 3 and totalPages-4 .. totalPages when
    current >= totalPages-2; the current page is one of the buttons
    whenever it lies within 1 .. totalPages. *)
Theorem page_buttons (pagination : PaginationState.t) :
  1 <= PaginationState.limit pagination ->
  let v := renderPagination pagination in
  let tp := totalPages v in
  let current := PaginationState.page pagination in
  (exists k, is_ceiling (PaginationState.total pagination)
                        (PaginationState.limit pagination) k /\
             tp = Z.max 1 k) /\
  (PaginationState.total pagination = 0 -> tp = 1) /\
  (length (pageButtons v) <= 5)%nat /\
  (tp <= 5 -> pageButtons v = Zrange 1 tp) /\
  (5 < tp -> 1 <= current - 2 -> current + 2 <= tp ->
   pageButtons v = Zrange (current - 2) (current + 2)) /\
  (5 < tp -> current <= 3 -> pageButtons v = Zrange 1 5) /\
  (5 < tp -> 3 < current -> tp - 2 <= current ->
   pageButtons v = Zrange (tp - 4) tp) /\
  (1 <= current <= tp -> In current (pageButtons v)).
Proof.
  intros Hl v tp current.
  assert (Htp : 1 <= tp) by (unfold tp, v; simpl; lia).
  assert (Hb : pageButtons v
               = Js.array_from (Z.min 5 tp) (pageNum tp current))
    by reflexivity.
  assert (Hsmall : tp <= 5 -> pageButtons v = Zrange 1 tp).
  { intros H. rewrite Hb. unfold Js.array_from, Zrange.
    replace (Z.min 5 tp) with tp by lia.
    replace (tp - 1 + 1) with tp by lia.
    apply map_ext. intros i. unfold pageNum.
    destruct (tp <=? 5) eqn:E; [lia | apply Z.leb_gt in E; lia]. }
  assert (Hlarge : 5 < tp ->
            pageButtons v
            = let f := pageNum tp current in [f 0; f 1; f 2; f 3; f 4]).
  { intros H. rewrite Hb. replace (Z.min 5 tp) with 5 by lia.
    apply array_from_five. }
  split.
  { exists (Js.ceil_div (PaginationState.total pagination)
                        (PaginationState.limit pagination)).
    split; [apply ceil_div_spec; lia | reflexivity]. }
  split.
  { intros H0. unfold tp, v. simpl. rewrite H0, ceil_div_zero. reflexivity. }
  split.
  { rewrite Hb, array_from_length. lia. }
  split; [exact Hsmall|].
  split.
  { intros H5 H1 H2. rewrite Hlarge by assumption.
    rewrite Zrange_five by lia. unfold pageNum. cbv zeta.
    destruct (tp <=? 5) eqn:E1; [apply Z.leb_le in E1; lia|].
    destruct (current <=? 3) eqn:E2;
      [apply Z.leb_le in E2; elementwise|].
    destruct (current >=? tp - 2) eqn:E3;
      rewrite Z.geb_leb in E3;
      try apply Z.leb_le in E3; try apply Z.leb_gt in E3; elementwise. }
  split.
  { intros H5 H3. rewrite Hlarge by assumption.
    rewrite Zrange_five by lia. unfold pageNum. cbv zeta.
    destruct (tp <=? 5) eqn:E1; [apply Z.leb_le in E1; lia|].
    destruct (current <=? 3) eqn:E2; [|apply Z.leb_gt in E2; lia].
    elementwise. }
  split.
  { intros H5 H3 H2. rewrite Hlarge by assumption.
    rewrite Zrange_five by lia. unfold pageNum. cbv zeta.
    destruct (tp <=? 5) eqn:E1; [apply Z.leb_le in E1; lia|].
    destruct (current <=? 3) eqn:E2; [apply Z.leb_le in E2; lia|].
    destruct (current >=? tp - 2) eqn:E3;
      rewrite Z.geb_leb in E3; [|apply Z.leb_gt in E3; lia].
    elementwise. }
  intros [H1 H2].
  destruct (Z_le_gt_dec tp 5) as [Hs|Hg].
  - rewrite Hsmall by assumption. unfold Zrange.
    apply in_map_iff. exists (Z.to_nat (current - 1)).
    split; [lia | apply in_seq; lia].
  - rewrite Hlarge by lia. unfold pageNum. cbv zeta.
    destruct (tp <=? 5) eqn:E1; [apply Z.leb_le in E1; lia|].
    destruct (current <=? 3) eqn:E2;
      [apply Z.leb_le in E2; simpl; lia|apply Z.leb_gt in E2].
    destruct (current >=? tp - 2) eqn:E3; rewrite Z.geb_leb in E3;
      [apply Z.leb_le in E3 | apply Z.leb_gt in E3]; simpl; lia.
Qed.

Lemma page_buttons_witness :
  pageButtons (renderPagination (PaginationState.mk 8 10 95))
  = Zrange 6 10 /\
  In 8 (pageButtons (renderPagination (PaginationState.mk 8 10 95))).
Proof.
  destruct (page_buttons (PaginationState.mk 8 10 95))
    as (_ & _ & _ & _ & _ & _ & Hend & Hin); [simpl; lia|].
  split.
  - apply Hend; vm_compute; first [reflexivity | discriminate].
  - apply Hin. split; vm_compute; discriminate.
Defined.

(** C9, as the specification words it, fails where fewer than 5 pages
    exist (the buttons are 1 .. totalPages, not 1 .. 5) and where the page
    lies past the last page (the state left by switching from a node with
    more allocations): the current page is then not among the buttons. *)
Lemma numbering_as_claimed_fails :
  ~ numbering_as_claimed (PaginationState.mk 1 10 25) /\
  ~ numbering_as_claimed (PaginationState.mk 2 10 5) /\
  pageButtons (renderPagination (PaginationState.mk 1 10 25)) = [1; 2; 3] /\
  pageButtons (renderPagination (PaginationState.mk 2 10 5)) = [1].
Proof.
  split; [|split; [|split; reflexivity]].
  - intros (_ & H & _). vm_compute in H. discriminate H.
  - intros (_ & _ & H). vm_compute in H. destruct H as [H|[]].
    discriminate H.
Qed.

(* ================================================================== *)
(** * Node deletion *)

Lemma blockedCount_spec (data : ErrorBody) :
  blockedCount data
  = match countField data with
    | Some c => if 0 <? c then Some c else None
    | None => None
    end.
Proof.
  unfold blockedCount. destruct (countField data) as [c|]; [|reflexivity].
  destruct (c =? 0) eqn:E0; destruct (c >? 0) eqn:E1;
    destruct (0 <? c) eqn:E2; simpl; try reflexivity;
    rewrite Z.gtb_ltb in E1; congruence || (apply Z.eqb_eq in E0; subst; discriminate).
Qed.

(** C6.  When the server answers a node deletion with an unsuccessful
    response whose body carries a workload count greater than 0, the
    handler raises exactly one notice, a warning that includes the count;
    when the body carries no such count the notice is an error with the
    server's message, or "Failed to delete node".  In both cases the
    deletion request is the only request issued (no refresh follows) and
    the node list, the selected node and the view are unchanged. *)
Theorem node_deletion_refused (w : World) (st : AppState)
  (h : list Request) (nodeId : string) (data : ErrorBody) :
  deleteNode w h nodeId = Fulfilled (RespNotOk (Parsed data)) ->
  let result := run (handleDelete w st nodeId) st h in
  let notice :=
    match countField data with
    | Some c =>
      if 0 <? c then mkAlert AlertWarning (blockedMessage c)
      else mkAlert AlertError
             (Js.or_default (errorField data) "Failed to delete node")
    | None =>
      mkAlert AlertError
        (Js.or_default (errorField data) "Failed to delete node")
    end in
  fst result = Returned tt /\
  log (snd result) = h ++ [DeleteNode nodeId] /\
  ui (snd result) = setAlerts (fun prev => prev ++ [notice]) st /\
  nodes (ui (snd result)) = nodes st /\
  selectedNode (ui (snd result)) = selectedNode st /\
  view (ui (snd result)) = view st.
Proof.
  intros Hreply result notice.
  assert (Hrun : result
                 = (Returned tt,
                    mkStore (setAlerts (fun prev => prev ++ [notice]) st)
                            (h ++ [DeleteNode nodeId]))).
  { unfold result, handleDelete. run_handler. rewrite Hreply.
    rewrite blockedCount_spec. unfold notice, blockedMessage.
    destruct (countField data) as [c|]; [destruct (0 <? c)|]; reflexivity. }
  rewrite Hrun. repeat split.
Qed.

Lemma node_deletion_refused_witness :
  alerts (ui (snd (run (handleDelete (refusingWorld (Some 3))
                          (viewing (sampleNode true None) 1 0 []) "n1")
                       (viewing (sampleNode true None) 1 0 []) [])))
  = [mkAlert AlertWarning "Cannot delete node with 3 active servers"] /\
  alerts (ui (snd (run (handleDelete (refusingWorld None)
                          (viewing (sampleNode true None) 1 0 []) "n1")
                       (viewing (sampleNode true None) 1 0 []) [])))
  = [mkAlert AlertError "Node has servers"].
Proof.
  split.
  - destruct (node_deletion_refused (refusingWorld (Some 3))
                (viewing (sampleNode true None) 1 0 []) [] "n1"
                (mkErrorBody (Some "Node has servers") (Some 3)) eq_refl)
      as (_ & _ & Hui & _).
    rewrite Hui. reflexivity.
  - destruct (node_deletion_refused (refusingWorld None)
                (viewing (sampleNode true None) 1 0 []) [] "n1"
                (mkErrorBody (Some "Node has servers") None) eq_refl)
      as (_ & _ & Hui & _).
    rewrite Hui. reflexivity.
Defined.

(* ================================================================== *)
(** * Allocation mutations and the pagination window *)

(** What the deletion handler leaves in the pagination window once the
    deletion and the refresh went through. *)
Lemma delete_pagination (w : World) (st : AppState) (h : list Request)
  (selected : Node.t) (allocationId : string) (body : JsonResult unit)
  (nd : Node.t) :
  selectedNode st = Some selected ->
  deleteAllocation w h (Node.id selected) allocationId
    = Fulfilled (RespOk body) ->
  getNode w (h ++ [DeleteAllocation (Node.id selected) allocationId])
          (Node.id selected) = Fulfilled (RespOk (Parsed nd)) ->
  let result := run (handleDeleteAllocation w st allocationId) st h in
  let before := allocationPagination st in
  fst result = Returned tt /\
  selectedNode (ui (snd result)) = Some nd /\
  selectedAllocations (ui (snd result)) = [] /\
  allocationPagination (ui (snd result))
  = match Node.allocations nd with
    | Some l =>
      let n := Z.of_nat (length l) in
      let tp := Js.ceil_div n (PaginationState.limit before) in
      if (PaginationState.page before >? tp) && (tp >? 0)
      then PaginationState.mk tp (PaginationState.limit before) n
      else PaginationState.mk (PaginationState.page before)
                              (PaginationState.limit before) n
    | None => before
    end.
Proof.
  intros Hsel Hdel Hget result before. unfold result, before.
  unfold handleDeleteAllocation. rewrite Hsel. run_handler. rewrite Hdel.
  unfold fetchSingleNode. run_handler. rewrite Hget, Hsel.
  rewrite String.eqb_refl.
  destruct (Tab_eqb (activeTab st) TabAllocations); run_handler;
    destruct (Node.allocations nd) as [l|] eqn:Hal; run_handler;
    rewrite ?Hal; run_handler;
    try (destruct ((PaginationState.page (allocationPagination st)
                    >? Js.ceil_div (Z.of_nat (length l))
                         (PaginationState.limit (allocationPagination st)))
                   && (Js.ceil_div (Z.of_nat (length l))
                         (PaginationState.limit (allocationPagination st))
                       >? 0)));
    repeat split.
Qed.

(** What the create handler leaves in the pagination window once the
    creation and the refresh went through. *)
Lemma create_pagination (w : World) (st : AppState) (h : list Request)
  (selected : Node.t) (body : JsonResult unit) (nd : Node.t) :
  selectedNode st = Some selected ->
  postAllocation w h (Node.id selected) (allocationFormData st)
    = Fulfilled (RespOk body) ->
  getNode w (h ++ [PostAllocation (Node.id selected) (allocationFormData st)])
          (Node.id selected) = Fulfilled (RespOk (Parsed nd)) ->
  let result := run (handleCreateAllocation w st selected) st h in
  let before := allocationPagination st in
  fst result = Returned tt /\
  selectedNode (ui (snd result)) = Some nd /\
  allocationPagination (ui (snd result))
  = match Node.allocations nd with
    | Some l => PaginationState.with_total before (Z.of_nat (length l))
    | None => before
    end.
Proof.
  intros Hsel Hpost Hget result before. unfold result, before.
  unfold handleCreateAllocation. run_handler. rewrite Hpost.
  unfold fetchSingleNode. run_handler. rewrite Hget, Hsel.
  rewrite String.eqb_refl.
  destruct (Tab_eqb (activeTab st) TabAllocations); run_handler;
    destruct (Node.allocations nd) as [l|] eqn:Hal; run_handler;
    rewrite ?Hal; run_handler;
    repeat split.
Qed.

(** C3, as the code has it.  After a deletion that went through, and a
    refresh that reports [n] remaining allocations (page size at least 1):
    the total becomes [n]; when the page lies past the last item of a pool
    that is not empty, the page becomes the last non-empty page,
    ceil(n/limit); when the page still holds an item, it stays; when the
    pool is empty the page stays as it was (1 only if it was 1) and the
    total is 0. *)
Theorem deletion_clamps_page (w : World) (st : AppState) (h : list Request)
  (selected : Node.t) (allocationId : string) (body : JsonResult unit)
  (nd : Node.t) (l : list Allocation.t) :
  selectedNode st = Some selected ->
  deleteAllocation w h (Node.id selected) allocationId
    = Fulfilled (RespOk body) ->
  getNode w (h ++ [DeleteAllocation (Node.id selected) allocationId])
          (Node.id selected) = Fulfilled (RespOk (Parsed nd)) ->
  Node.allocations nd = Some l ->
  1 <= PaginationState.limit (allocationPagination st) ->
  let before := allocationPagination st in
  let after :=
    allocationPagination
      (ui (snd (run (handleDeleteAllocation w st allocationId) st h))) in
  let n := Z.of_nat (length l) in
  PaginationState.total after = n /\
  PaginationState.limit after = PaginationState.limit before /\
  (0 < n ->
   n <= (PaginationState.page before - 1) * PaginationState.limit before ->
   is_ceiling n (PaginationState.limit before) (PaginationState.page after) /\
   PaginationState.page after < PaginationState.page before) /\
  (0 < n ->
   (PaginationState.page before - 1) * PaginationState.limit before < n ->
   PaginationState.page after = PaginationState.page before) /\
  (n = 0 ->
   PaginationState.page after = PaginationState.page before /\
   PaginationState.total after = 0).
Proof.
  intros Hsel Hdel Hget Hal Hlimit before after n.
  destruct (delete_pagination w st h selected allocationId body nd
              Hsel Hdel Hget) as (_ & _ & _ & Hpag).
  unfold after. rewrite Hpag, Hal. cbv zeta. fold n.
  subst before. set (before := allocationPagination st) in *.
  clearbody before n.
  pose proof (ceil_div_spec n (PaginationState.limit before) ltac:(lia))
    as Hc.
  set (tp := Js.ceil_div n (PaginationState.limit before)) in *.
  clearbody tp.
  assert (Hpos : 0 < n -> 0 < tp) by (unfold is_ceiling in Hc; nia).
  assert (Hzero : n = 0 -> tp = 0) by (unfold is_ceiling in Hc; nia).
  assert (Hpast : tp < PaginationState.page before <->
                  n <= (PaginationState.page before - 1)
                       * PaginationState.limit before)
    by (unfold is_ceiling in Hc; split; intros; nia).
  destruct (PaginationState.page before >? tp) eqn:E1;
    destruct (tp >? 0) eqn:E2;
    rewrite Z.gtb_ltb in E1, E2;
    try apply Z.ltb_lt in E1; try apply Z.ltb_ge in E1;
    try apply Z.ltb_lt in E2; try apply Z.ltb_ge in E2;
    cbn [andb PaginationState.page PaginationState.limit
         PaginationState.total];
    (split; [reflexivity|]); (split; [reflexivity|]);
    (split; [intros H1 H2; split; [exact Hc || lia | lia]|]);
    (split; [intros H1 H2; lia|]);
    intros H0; split; lia.
Qed.

Lemma deletion_clamps_page_witness :
  allocationPagination
    (ui (snd (run (handleDeleteAllocation
                     (steadyWorld (sampleNode true
                                     (Some (firstn 10 elevenFree))))
                     (viewing (sampleNode true (Some elevenFree)) 2 11 [])
                     "10")
                  (viewing (sampleNode true (Some elevenFree)) 2 11 []) [])))
  = PaginationState.mk 1 10 10.
Proof.
  destruct (deletion_clamps_page
              (steadyWorld (sampleNode true (Some (firstn 10 elevenFree))))
              (viewing (sampleNode true (Some elevenFree)) 2 11 []) []
              (sampleNode true (Some elevenFree)) "10" (Parsed tt)
              (sampleNode true (Some (firstn 10 elevenFree)))
              (firstn 10 elevenFree)
              eq_refl eq_refl eq_refl eq_refl ltac:(simpl; lia))
    as (Htotal & Hlimit & Hclamp & _).
  destruct Hclamp as [Hceil _]; [reflexivity | vm_compute; discriminate |].
  unfold is_ceiling in Hceil.
  destruct (allocationPagination _) as [p lim tot].
  cbn [PaginationState.total PaginationState.limit PaginationState.page] in *.
  subst lim tot. f_equal.
  change (PaginationState.limit
            (allocationPagination
               (viewing (sampleNode true (Some elevenFree)) 2 11 [])))
    with 10 in Hceil.
  change (Z.of_nat (length (firstn 10 elevenFree))) with 10 in Hceil.
  lia.
Defined.

(** C3, as the specification words it, fails when the pool becomes empty
    while the window is on a later page (here the last of 11 allocations is
    deleted from page 2 after the 10 others were removed elsewhere): the
    page stays 2, it is not clamped to 1. *)
Lemma empty_pool_keeps_page :
  fst (run (handleDeleteAllocation emptiedWorld lastOfEleven "10")
           lastOfEleven []) = Returned tt /\
  selectedNode
    (ui (snd (run (handleDeleteAllocation emptiedWorld lastOfEleven "10")
                  lastOfEleven [])))
  = Some (sampleNode true (Some [])) /\
  allocationPagination
    (ui (snd (run (handleDeleteAllocation emptiedWorld lastOfEleven "10")
                  lastOfEleven [])))
  = PaginationState.mk 2 10 0 /\
  PaginationState.page
    (allocationPagination
       (ui (snd (run (handleDeleteAllocation emptiedWorld lastOfEleven "10")
                     lastOfEleven [])))) <> 1.
Proof.
  vm_compute. repeat split. discriminate.
Qed.

(** C4.  After an allocation mutation (a creation, of a single port or of
    a range, or a deletion) that went through and whose refresh of the
    selected node succeeded, the refreshed node, with the allocation list
    it includes, is the selected node and the total of the pagination
    window is the live allocation count, the length of that list: the total
    is written from the refreshed node whatever total the window carried
    before the mutation.  The effect that follows the change of the
    selected node writes the same total. *)
Theorem mutation_refreshes_total (w : World) (st : AppState)
  (h : list Request) (selected : Node.t) (m : Mutation)
  (body : JsonResult unit) (nd : Node.t) (l : list Allocation.t) :
  selectedNode st = Some selected ->
  mutationReply w m st selected h = Fulfilled (RespOk body) ->
  getNode w (h ++ [mutationRequest m st selected]) (Node.id selected)
    = Fulfilled (RespOk (Parsed nd)) ->
  Node.allocations nd = Some l ->
  let after := ui (snd (run (runMutation w m st selected) st h)) in
  selectedNode after = Some nd /\
  PaginationState.total (allocationPagination after)
  = Z.of_nat (length (allocationsOf nd)) /\
  PaginationState.total (allocationPagination after) = Z.of_nat (length l) /\
  PaginationState.total (allocationPagination (allocationTotalEffect after))
  = Z.of_nat (length l).
Proof.
  intros Hsel Hreply Hget Hal after.
  assert (H : selectedNode after = Some nd /\
              PaginationState.total (allocationPagination after)
              = Z.of_nat (length l)).
  { unfold after. destruct m as [|allocationId]; simpl in *.
    - destruct (create_pagination w st h selected body nd Hsel Hreply Hget)
        as (_ & Hnode & Hpag).
      split; [exact Hnode|]. rewrite Hpag, Hal. reflexivity.
    - destruct (delete_pagination w st h selected allocationId body nd
                  Hsel Hreply Hget) as (_ & Hnode & _ & Hpag).
      split; [exact Hnode|]. rewrite Hpag, Hal.
      cbv zeta. destruct (_ && _); reflexivity. }
  destruct H as [Hnode Htotal].
  split; [exact Hnode|].
  split; [unfold allocationsOf; rewrite Hal; exact Htotal|].
  split; [exact Htotal|].
  unfold allocationTotalEffect. rewrite Hnode, Hal.
  destruct (Tab_eqb (activeTab after) TabAllocations);
    [reflexivity | exact Htotal].
Qed.

Lemma mutation_refreshes_total_witness :
  PaginationState.total
    (allocationPagination
       (ui (snd (run (runMutation (steadyWorld
                                     (sampleNode true (Some elevenFree)))
                        Create
                        (withPortForm 25576
                           (viewing (sampleNode true (Some mixedPool))
                                    1 15 []))
                        (sampleNode true (Some mixedPool)))
                     (withPortForm 25576
                        (viewing (sampleNode true (Some mixedPool)) 1 15 []))
                     [])))) = 11 /\
  PaginationState.total
    (allocationPagination
       (ui (snd (run (runMutation (steadyWorld
                                     (sampleNode true (Some elevenFree)))
                        Create
                        (withRangeForm 25576 25580
                           (viewing (sampleNode true (Some mixedPool))
                                    1 15 []))
                        (sampleNode true (Some mixedPool)))
                     (withRangeForm 25576 25580
                        (viewing (sampleNode true (Some mixedPool)) 1 15 []))
                     [])))) = 11 /\
  PaginationState.total
    (allocationPagination
       (ui (snd (run (runMutation (steadyWorld
                                     (sampleNode true (Some elevenFree)))
                        (Delete "3")
                        (viewing (sampleNode true (Some mixedPool)) 1 15 [])
                        (sampleNode true (Some mixedPool)))
                     (viewing (sampleNode true (Some mixedPool)) 1 15 [])
                     [])))) = 11.
Proof.
  split; [|split].
  - destruct (mutation_refreshes_total
                (steadyWorld (sampleNode true (Some elevenFree)))
                (withPortForm 25576
                   (viewing (sampleNode true (Some mixedPool)) 1 15 []))
                [] (sampleNode true (Some mixedPool)) Create (Parsed tt)
                (sampleNode true (Some elevenFree)) elevenFree
                eq_refl eq_refl eq_refl eq_refl) as (_ & _ & Htotal & _).
    exact Htotal.
  - destruct (mutation_refreshes_total
                (steadyWorld (sampleNode true (Some elevenFree)))
                (withRangeForm 25576 25580
                   (viewing (sampleNode true (Some mixedPool)) 1 15 []))
                [] (sampleNode true (Some mixedPool)) Create (Parsed tt)
                (sampleNode true (Some elevenFree)) elevenFree
                eq_refl eq_refl eq_refl eq_refl) as (_ & _ & Htotal & _).
    exact Htotal.
  - destruct (mutation_refreshes_total
                (steadyWorld (sampleNode true (Some elevenFree)))
                (viewing (sampleNode true (Some mixedPool)) 1 15 [])
                [] (sampleNode true (Some mixedPool)) (Delete "3")
                (Parsed tt) (sampleNode true (Some elevenFree)) elevenFree
                eq_refl eq_refl eq_refl eq_refl) as (_ & _ & Htotal & _).
    exact Htotal.
Defined.


(* ================================================================== *)
(** * Bulk deletion *)

(** The refresh of one node never throws and issues exactly one request. *)
Lemma fetchSingleNode_returns (w : World) (cl : AppState) (nodeId : string)
  (s : Store) :
  exists r u',
    fetchSingleNode w cl nodeId s
    = (Returned r, mkStore u' (log s ++ [GetNode nodeId])).
Proof.
  unfold fetchSingleNode. branch_handler; do 2 eexists; reflexivity.
Qed.

(** One deletion never throws; it issues the deletion request and, when
    the deletion went through, the refresh of the node. *)
Lemma handleDeleteAllocation_returns (w : World) (cl : AppState)
  (selected : Node.t) (allocationId : string) (s : Store) :
  selectedNode cl = Some selected ->
  exists u' seg,
    handleDeleteAllocation w cl allocationId s
    = (Returned tt, mkStore u' (log s ++ seg)) /\
    deletionSegment (Node.id selected) allocationId seg.
Proof.
  intros Hsel. destruct s as [u lg].
  unfold handleDeleteAllocation. rewrite Hsel. run_handler.
  destruct (deleteAllocation w lg (Node.id selected) allocationId)
    as [msg|[body|[eb|msg]]]; run_handler.
  - eexists. exists [DeleteAllocation (Node.id selected) allocationId].
    split; [reflexivity | now left].
  - destruct (fetchSingleNode_returns w cl (Node.id selected)
                (mkStore u (lg ++ [DeleteAllocation (Node.id selected)
                                                    allocationId])))
      as (r & u' & Hrefresh).
    cbn [log] in Hrefresh. rewrite Hrefresh.
    branch_handler; rewrite <- app_assoc;
      (eexists; eexists; split; [reflexivity | now right]).
  - eexists. exists [DeleteAllocation (Node.id selected) allocationId].
    split; [reflexivity | now left].
  - eexists. exists [DeleteAllocation (Node.id selected) allocationId].
    split; [reflexivity | now left].
Qed.

Lemma sweep_returns (w : World) (cl : AppState) (selected : Node.t) :
  selectedNode cl = Some selected ->
  forall (ids : list string) (s : Store),
  exists u' segs,
    for_each ids
      (fun id => try_catch (handleDeleteAllocation w cl id)
                           (fun _ => ret tt)) s
    = (Returned tt, mkStore u' (log s ++ concat segs)) /\
    Forall2 (deletionSegment (Node.id selected)) ids segs.
Proof.
  intros Hsel. induction ids as [|id rest IH]; intros s.
  - exists (ui s), []. split; [|constructor].
    simpl. rewrite app_nil_r. now destruct s.
  - destruct (handleDeleteAllocation_returns w cl selected id s Hsel)
      as (u1 & seg & Hstep & Hseg).
    destruct (IH (mkStore u1 (log s ++ seg))) as (u2 & segs & Hrest & Hsegs).
    exists u2, (seg :: segs). split; [|now constructor].
    cbn [for_each]. run_handler. rewrite Hstep.
    cbn [log] in Hrest. unfold try_catch, ret in Hrest. rewrite Hrest.
    cbn [concat]. now rewrite app_assoc.
Qed.

(** C7.  Bulk deletion handles the selected allocations one after the
    other, in the order of the selection: the requests it issues are, for
    each selected allocation in turn, the deletion request followed, when
    that deletion went through, by the refresh of the node, and nothing of
    the next allocation is issued before.  Whatever the server answers to
    any of them (a refusal, a network failure), every selected allocation
    gets its deletion request, the handler returns normally and the
    selection is empty at the end. *)
Theorem bulk_deletion_sweeps (w : World) (st : AppState) (h : list Request)
  (selected : Node.t) :
  selectedNode st = Some selected ->
  let result := run (handleDeleteSelected w st) st h in
  fst result = Returned tt /\
  selectedAllocations (ui (snd result)) = [] /\
  exists segs,
    log (snd result) = h ++ concat segs /\
    Forall2 (deletionSegment (Node.id selected))
            (selectedAllocations st) segs.
Proof.
  intros Hsel result.
  destruct (sweep_returns w st selected Hsel (selectedAllocations st)
              (mkStore st h)) as (u' & segs & Hsweep & Hsegs).
  assert (Hrun : result
                 = (Returned tt,
                    mkStore (setSelectedAllocations [] u')
                            (h ++ concat segs))).
  { unfold result, handleDeleteSelected, run, bind. rewrite Hsweep.
    reflexivity. }
  rewrite Hrun. split; [reflexivity|]. split; [reflexivity|].
  exists segs. split; [reflexivity | exact Hsegs].
Qed.

Lemma bulk_deletion_sweeps_witness :
  selectedAllocations
    (ui (snd (run (handleDeleteSelected (refusingWorld None) twoTicked)
                  twoTicked [])))
  = [] /\
  log (snd (run (handleDeleteSelected (refusingWorld None) twoTicked)
                twoTicked []))
  = [DeleteAllocation "n1" "1"; DeleteAllocation "n1" "2"] /\
  log (snd (run (handleDeleteSelected
                   (steadyWorld (sampleNode true (Some elevenFree)))
                   twoTicked)
                twoTicked []))
  = [DeleteAllocation "n1" "1"; GetNode "n1";
     DeleteAllocation "n1" "2"; GetNode "n1"].
Proof.
  destruct (bulk_deletion_sweeps (refusingWorld None) twoTicked []
              (sampleNode true (Some elevenFree)) eq_refl)
    as (_ & Hclear & _).
  split; [exact Hclear|]. split; reflexivity.
Defined.

(* ================================================================== *)
(** * The status probes of a refresh *)

(** A probe never throws: it yields the snapshot of its own reply, and
    touches nothing of the component state. *)
Lemma fetchNodeState_snapshot (w : World) (node : Node.t) (s : Store) :
  fetchNodeState w node s
  = (Returned (snapshot (getState w (log s) (Node.fqdn node)
                                  (Node.port node))),
     mkStore (ui s) (log s ++ [probeRequest node])).
Proof.
  destruct s as [u lg]. unfold fetchNodeState, probeRequest. run_handler.
  destruct (getState w lg (Node.fqdn node) (Node.port node))
    as [msg|[[snap|msg]|body]]; reflexivity.
Qed.

Lemma probes_return (w : World) : forall (l : list Node.t) (s : Store),
  exists out,
    map_all l (withState w) s
    = (Returned out,
       mkStore (ui s)
               (log s ++ map probeRequest (filter Node.isOnline l))) /\
    length out = length l /\
    forall i node,
      nth_error l i = Some node ->
      nth_error out i
      = Some (probedNode w
                (log s ++ map probeRequest
                            (filter Node.isOnline (firstn i l))) node).
Proof.
  induction l as [|node rest IH]; intros s.
  - exists []. split; [|split; [reflexivity|]].
    + simpl. rewrite app_nil_r. now destruct s.
    + intros [|i] n H; discriminate H.
  - cbn [map_all filter]. unfold withState at 1.
    destruct (Node.isOnline node) eqn:Hon.
    + destruct (IH (mkStore (ui s) (log s ++ [probeRequest node])))
        as (out & Hrest & Hlen & Hout).
      eexists. split; [|split].
      * unfold bind. rewrite fetchNodeState_snapshot.
        unfold ret at 1. cbn [log ui] in Hrest. rewrite Hrest.
        unfold ret. cbn [map]. rewrite <- app_assoc. reflexivity.
      * simpl. now rewrite Hlen.
      * intros [|i] n Hn.
        -- injection Hn as <-. cbn [nth_error firstn filter map].
           rewrite app_nil_r. unfold probedNode, Node.with_systemState.
           rewrite Hon. reflexivity.
        -- cbn [nth_error] in *. rewrite (Hout i n Hn).
           cbn [firstn filter log]. rewrite Hon. cbn [map].
           now rewrite <- app_assoc.
    + destruct (IH s) as (out & Hrest & Hlen & Hout).
      eexists. split; [|split].
      * unfold bind, ret at 1. rewrite Hrest. reflexivity.
      * simpl. now rewrite Hlen.
      * intros [|i] n Hn.
        -- injection Hn as <-. cbn [nth_error]. f_equal.
           unfold probedNode. destruct node. cbn in Hon |- *.
           rewrite Hon. reflexivity.
        -- cbn [nth_error] in *. rewrite (Hout i n Hn).
           cbn [firstn filter]. now rewrite Hon.
Qed.

Lemma online_with_resources (nodesData : list Node.t)
  (serversData : list Server.t) :
  map probeRequest
      (filter Node.isOnline (nodesWithResources nodesData serversData))
  = map probeRequest (filter Node.isOnline nodesData).
Proof.
  unfold nodesWithResources.
  induction nodesData as [|node rest IH]; [reflexivity|].
  cbn [map filter]. unfold withResources at 1, Node.with_resources at 1.
  cbn [Node.isOnline]. destruct (Node.isOnline node); cbn [map];
    now rewrite IH.
Qed.

Lemma online_prefix_with_resources (nodesData : list Node.t)
  (serversData : list Server.t) (i : nat) :
  map probeRequest
      (filter Node.isOnline
              (firstn i (nodesWithResources nodesData serversData)))
  = map probeRequest (filter Node.isOnline (firstn i nodesData)).
Proof.
  unfold nodesWithResources. rewrite firstn_map.
  apply (online_with_resources (firstn i nodesData) serversData).
Qed.

(** C8.  In a refresh whose two list requests succeed, the status probe is
    issued for the nodes reported online, for each of them once and in
    list order, and for no other node.  The refreshed list has the nodes of
    the reported list, in place, each with its reported fields and its
    resources; an offline node keeps the system state it was reported
    with; an online node gets its system state from the reply to its own
    probe: the snapshot when the probe succeeded, and none (null) when its
    request was rejected, its response was not ok or its body could not be
    read, whatever state the node was reported with and whatever the
    probes of the other nodes answered.  In every case the refresh
    completes: the handler returns normally, the lists are replaced, the
    error is cleared, no notice is raised and the loading flag is reset. *)
Theorem refresh_probes_online_nodes (w : World) (cl st : AppState)
  (h : list Request) (nodesData : list Node.t)
  (serversData : list Server.t) :
  getNodes w h = Fulfilled (RespOk (Parsed nodesData)) ->
  getServers w (h ++ [GetNodes]) = Fulfilled (RespOk (Parsed serversData)) ->
  let result := run (fetchData w cl) st h in
  let after := ui (snd result) in
  let history (i : nat) :=
    h ++ [GetNodes; GetServers]
      ++ map probeRequest (filter Node.isOnline (firstn i nodesData)) in
  fst result = Returned tt /\
  log (snd result)
  = h ++ [GetNodes; GetServers]
      ++ map probeRequest (filter Node.isOnline nodesData) /\
  length (nodes after) = length nodesData /\
  (forall i node,
     nth_error nodesData i = Some node ->
     exists n',
       nth_error (nodes after) i = Some n' /\
       Node.id n' = Node.id node /\ Node.name n' = Node.name node /\
       Node.fqdn n' = Node.fqdn node /\ Node.port n' = Node.port node /\
       Node.isOnline n' = Node.isOnline node /\
       Node.lastChecked n' = Node.lastChecked node /\
       Node.createdAt n' = Node.createdAt node /\
       Node.updatedAt n' = Node.updatedAt node /\
       Node.connectionKey n' = Node.connectionKey node /\
       Node.allocations n' = Node.allocations node /\
       Node.resources n' = Node.resources (withResources serversData node) /\
       (Node.isOnline node = false ->
        Node.systemState n' = Node.systemState node) /\
       (Node.isOnline node = true ->
        let reply :=
          getState w (history i) (Node.fqdn node) (Node.port node) in
        (forall snap, reply = Fulfilled (RespOk (Parsed snap)) ->
                      Node.systemState n' = Some snap) /\
        (forall message, reply = FetchRejected message ->
                         Node.systemState n' = None) /\
        (forall body, reply = Fulfilled (RespNotOk body) ->
                      Node.systemState n' = None) /\
        (forall message, reply = Fulfilled (RespOk (Unparsable message)) ->
                         Node.systemState n' = None))) /\
  servers after = serversData /\
  error after = None /\
  alerts after = alerts st /\
  loading after = false.
Proof.
  intros Hnodes Hservers result after history.
  destruct (probes_return w (nodesWithResources nodesData serversData)
              (mkStore (setLoading true st)
                       ((h ++ [GetNodes]) ++ [GetServers])))
    as (out & Hprobes & Hlen & Hout).
  cbn [ui log] in Hprobes, Hout.
  assert (Hlog : forall tail : list Request,
             ((h ++ [GetNodes]) ++ [GetServers]) ++ tail
             = h ++ [GetNodes; GetServers] ++ tail)
    by (intros tail; now rewrite <- !app_assoc).
  assert (Hrun : fst result = Returned tt /\
                 log (snd result)
                 = h ++ [GetNodes; GetServers]
                     ++ map probeRequest (filter Node.isOnline nodesData) /\
                 nodes after = out /\
                 servers after = serversData /\ error after = None /\
                 alerts after = alerts st /\ loading after = false).
  { unfold after, result, fetchData. run_handler.
    rewrite Hnodes, Hservers. run_handler.
    rewrite Hprobes, online_with_resources, Hlog.
    branch_handler; repeat split. }
  destruct Hrun as (Hret & Hlogged & Hlist & Hsrv & Herr & Hal & Hload).
  split; [exact Hret|]. split; [exact Hlogged|].
  split.
  { rewrite Hlist, Hlen. unfold nodesWithResources. apply length_map. }
  split.
  { intros i node Hi.
    assert (Hi' : nth_error (nodesWithResources nodesData serversData) i
                  = Some (withResources serversData node))
      by (unfold nodesWithResources; now rewrite nth_error_map, Hi).
    specialize (Hout i _ Hi').
    rewrite online_prefix_with_resources, Hlog in Hout.
    fold (history i) in Hout.
    eexists. split; [rewrite Hlist; exact Hout|].
    unfold probedNode, withResources, Node.with_resources.
    cbn [Node.id Node.name Node.fqdn Node.port Node.isOnline
         Node.lastChecked Node.createdAt Node.updatedAt Node.systemState
         Node.connectionKey Node.allocations Node.resources].
    do 11 (split; [reflexivity|]).
    split.
    - intros Hoff. now rewrite Hoff.
    - intros Hon. rewrite Hon. cbv zeta.
      repeat split; intros x Hreply; rewrite Hreply; reflexivity. }
  repeat split; assumption.
Qed.

Lemma refresh_probes_online_nodes_witness :
  log (snd (run (fetchData fleetWorld initialState) initialState []))
  = [GetNodes; GetServers; GetState "node1.example.com" 8080;
     GetState "node3.example.com" 8080] /\
  (exists n',
     nth_error (nodes (ui (snd (run (fetchData fleetWorld initialState)
                                    initialState [])))) 1 = Some n' /\
     Node.id n' = "n3" /\ Node.systemState n' = None) /\
  error (ui (snd (run (fetchData fleetWorld initialState) initialState [])))
  = None.
Proof.
  destruct (refresh_probes_online_nodes fleetWorld initialState initialState
              [] [sampleNode true None; staleNode; otherNode false] []
              eq_refl eq_refl)
    as (_ & Hlog & _ & Hnodes & _ & Herror & _).
  split; [exact Hlog|]. split; [|exact Herror].
  destruct (Hnodes 1%nat staleNode eq_refl)
    as (n' & Hnth & Hid & _ & _ & _ & _ & _ & _ & _ & _ & _ & _ & _ & Hon).
  exists n'. split; [exact Hnth|]. split; [exact Hid|].
  destruct (Hon eq_refl) as (_ & Hrejected & _).
  apply (Hrejected "Failed to fetch"). reflexivity.
Defined.

(* ================================================================== *)
(** * The server search widget *)

Lemma rev_string_empty (s : string) : forall acc,
  Js.rev_string s acc = "" <-> s = "" /\ acc = "".
Proof.
  induction s as [|c t IH]; intros acc; simpl.
  - split; [intros ->; now split | now intros [_ ->]].
  - rewrite IH. split; intros [H1 H2]; discriminate.
Qed.

Lemma all_space_rev (s : string) : forall acc,
  all_space (Js.rev_string s acc) = all_space s && all_space acc.
Proof.
  induction s as [|c t IH]; intros acc; simpl.
  - reflexivity.
  - rewrite IH. simpl.
    destruct (Js.is_space c), (all_space t), (all_space acc); reflexivity.
Qed.

Lemma trimStart_empty (s : string) :
  Js.trimStart s = "" <-> all_space s = true.
Proof.
  induction s as [|c t IH]; simpl.
  - split; reflexivity.
  - destruct (Js.is_space c); simpl.
    + exact IH.
    + split; discriminate.
Qed.

(** [!query.trim ()] holds exactly for the queries made of white space. *)
Lemma blank_query (q : string) :
  Js.falsy (Js.trim q) = true <-> all_space q = true.
Proof.
  unfold Js.falsy, Js.trim. rewrite String.eqb_eq, rev_string_empty.
  rewrite trimStart_empty, all_space_rev, andb_true_r.
  split.
  - intros [H _]. apply trimStart_empty.
    destruct (Js.trimStart q) as [|c t] eqn:E; [reflexivity|].
    exfalso. clear - E H. revert c t E H.
    induction q as [|d u IH]; intros c t E H; simpl in E; [discriminate|].
    destruct (Js.is_space d) eqn:Hd.
    + now apply (IH c t).
    + injection E as <- <-. simpl in H. rewrite Hd in H. discriminate.
  - intros H. apply trimStart_empty in H. rewrite H. now split.
Qed.

(** The filter of the search widget: a blank query shows the whole cached
    list and leaves the selection index alone; any other query keeps the
    servers whose lowered name, or whose node's lowered fqdn, includes the
    lowered query, and resets the selection index to 0. *)
Lemma search_filter (q : string) (s : SearchBar.State) :
  SearchBar.servers (SearchBar.changeQuery q s) = SearchBar.servers s /\
  (all_space q = true ->
   SearchBar.filteredServers (SearchBar.changeQuery q s)
   = SearchBar.servers s /\
   SearchBar.selectedIndex (SearchBar.changeQuery q s)
   = SearchBar.selectedIndex s) /\
  (all_space q = false ->
   SearchBar.filteredServers (SearchBar.changeQuery q s)
   = filter (fun server =>
               Js.includes (Js.toLowerCase (SearchBar.name server))
                           (Js.toLowerCase q)
               || match SearchBar.node server with
                  | Some n => Js.includes (Js.toLowerCase (SearchBar.fqdn n))
                                          (Js.toLowerCase q)
                  | None => false
                  end)
            (SearchBar.servers s) /\
   SearchBar.selectedIndex (SearchBar.changeQuery q s) = 0).
Proof.
  unfold SearchBar.changeQuery, SearchBar.filterEffect.
  cbn [SearchBar.setQuery SearchBar.query SearchBar.servers].
  destruct (Js.falsy (Js.trim q)) eqn:E.
  - apply blank_query in E. split; [reflexivity|]. split.
    + intros _. split; reflexivity.
    + intros H. congruence.
  - split; [reflexivity|]. split.
    + intros H. apply blank_query in H. congruence.
    + intros _. split; reflexivity.
Qed.

(** A server without a node record is kept on a name match only. *)
Lemma search_without_node (lowerQuery : string) (server : SearchBar.Server) :
  SearchBar.node server = None ->
  SearchBar.matches lowerQuery server
  = Js.includes (Js.toLowerCase (SearchBar.name server)) lowerQuery.
Proof.
  intros H. unfold SearchBar.matches. rewrite H. apply orb_false_r.
Qed.

(** C10, at the failing input.  The list has arrived, the user typed "a"
    and moved the selection down twice (index 2), then clears the query:
    the effect shows the whole list again and returns before it resets the
    selection, so the index is still 2, not 0.  (A change to a query that
    is not blank does reset it, as [search_filter] shows.) *)
Theorem cleared_query_keeps_selection :
  SearchBar.selectedIndex searchedTwiceDown = 2 /\
  SearchBar.filteredServers (SearchBar.changeQuery "" searchedTwiceDown)
  = searchServers /\
  SearchBar.selectedIndex (SearchBar.changeQuery "" searchedTwiceDown) = 2 /\
  SearchBar.selectedIndex (SearchBar.changeQuery "  " searchedTwiceDown) = 2 /\
  SearchBar.selectedIndex (SearchBar.changeQuery "b" searchedTwiceDown) = 0.
Proof.
  repeat split.
Qed.

(* ================================================================== *)
(** * The node table: [getSortedNodes] *)

Section StableSort.

Context {A : Type}.
Variable compareFn : A -> A -> Z.

Lemma insert_by_perm (x : A) (l : list A) :
  Permutation (x :: l) (Js.insert_by compareFn x l).
Proof.
  induction l as [|y t IH]; simpl.
  - apply Permutation_refl.
  - destruct (compareFn x y <=? 0).
    + apply Permutation_refl.
    + eapply perm_trans; [apply perm_swap|]. now constructor.
Qed.

Lemma sort_perm (l : list A) : Permutation l (Js.sort compareFn l).
Proof.
  induction l as [|x t IH]; simpl.
  - constructor.
  - eapply perm_trans; [|apply insert_by_perm]. now constructor.
Qed.

(** A comparator that is constantly 0 leaves the array as it is. *)
Lemma sort_constant (l : list A) :
  (forall a b, compareFn a b = 0) -> Js.sort compareFn l = l.
Proof.
  intros H. induction l as [|x t IH]; simpl; [reflexivity|].
  rewrite IH. destruct t as [|y u]; simpl; [reflexivity|].
  now rewrite H.
Qed.

(** The comparator orders by a numeric key. *)
Variable key : A -> Z.
Hypothesis by_key : forall a b, compareFn a b <= 0 <-> key a <= key b.

Lemma insert_by_sorted (x : A) (l : list A) :
  StronglySorted (fun a b => key a <= key b) l ->
  StronglySorted (fun a b => key a <= key b) (Js.insert_by compareFn x l).
Proof.
  induction l as [|y t IH]; intros Hs; simpl.
  - repeat constructor.
  - inversion Hs as [|? ? Ht Hy]; subst.
    destruct (compareFn x y <=? 0) eqn:E.
    + apply Z.leb_le, by_key in E. constructor; [exact Hs|].
      constructor; [exact E|].
      eapply Forall_impl; [|exact Hy]. simpl. intros; lia.
    + apply Z.leb_gt in E.
      assert (Hyx : key y <= key x).
      { destruct (Z_le_gt_dec (key y) (key x)) as [H|H]; [exact H|].
        exfalso. assert (key x <= key y) by lia.
        apply by_key in H0. lia. }
      constructor; [now apply IH|].
      eapply Permutation_Forall; [apply insert_by_perm|].
      constructor; assumption.
Qed.

Lemma sort_sorted (l : list A) :
  StronglySorted (fun a b => key a <= key b) (Js.sort compareFn l).
Proof.
  induction l as [|x t IH]; simpl.
  - constructor.
  - now apply insert_by_sorted.
Qed.

Lemma insert_by_stable (k : Z) (x : A) (l : list A) :
  filter (fun a => key a =? k) (Js.insert_by compareFn x l)
  = filter (fun a => key a =? k) (x :: l).
Proof.
  induction l as [|y t IH]; simpl; [reflexivity|].
  destruct (compareFn x y <=? 0) eqn:E; [reflexivity|].
  apply Z.leb_gt in E.
  assert (Hne : key x <> key y).
  { intros Heq. assert (H : key x <= key y) by lia.
    apply by_key in H. lia. }
  simpl. rewrite IH. simpl.
  destruct (key x =? k) eqn:Ex; destruct (key y =? k) eqn:Ey;
    try reflexivity.
  apply Z.eqb_eq in Ex, Ey. congruence.
Qed.

Lemma sort_stable (k : Z) (l : list A) :
  filter (fun a => key a =? k) (Js.sort compareFn l)
  = filter (fun a => key a =? k) l.
Proof.
  induction l as [|x t IH]; simpl; [reflexivity|].
  rewrite insert_by_stable. simpl. now rewrite IH.
Qed.

End StableSort.

(** A list sorted by a key that takes two values is the elements of the
    lower value followed by those of the higher one. *)
Lemma two_valued_sorted {A : Type} (key : A -> Z) (lo hi : Z) (l : list A) :
  lo < hi ->
  Forall (fun a => key a = lo \/ key a = hi) l ->
  StronglySorted (fun a b => key a <= key b) l ->
  l = filter (fun a => key a =? lo) l ++ filter (fun a => key a =? hi) l.
Proof.
  intros Hlt Hall Hs. induction Hs as [|x t Ht IH Hx]; [reflexivity|].
  inversion Hall as [|? ? Hkx Hallt]; subst. simpl.
  destruct Hkx as [Hk|Hk]; rewrite Hk.
  - rewrite Z.eqb_refl. replace (lo =? hi) with false
      by (symmetry; apply Z.eqb_neq; lia).
    simpl. f_equal. now apply IH.
  - replace (hi =? lo) with false by (symmetry; apply Z.eqb_neq; lia).
    rewrite Z.eqb_refl.
    assert (Hhi : Forall (fun a => key a = hi) t).
    { rewrite Forall_forall in *. intros a Ha.
      specialize (Hx a Ha). specialize (Hallt a Ha). simpl in Hx. lia. }
    assert (Hnone : filter (fun a => key a =? lo) t = []).
    { clear - Hhi Hlt. induction Hhi as [|a u Ha _ IHu]; simpl;
        [reflexivity|].
      rewrite Ha. replace (hi =? lo) with false
        by (symmetry; apply Z.eqb_neq; lia). exact IHu. }
    assert (Hall' : filter (fun a => key a =? hi) t = t).
    { clear - Hhi. induction Hhi as [|a u Ha _ IHu]; simpl; [reflexivity|].
      rewrite Ha, Z.eqb_refl. now f_equal. }
    now rewrite Hnone, Hall'.
Qed.

Lemma StronglySorted_weaken {A : Type} (R S : A -> A -> Prop) (l : list A) :
  (forall a b, R a b -> S a b) ->
  StronglySorted R l -> StronglySorted S l.
Proof.
  intros H Hs. induction Hs as [|x t _ IH Hx]; constructor; [exact IH|].
  eapply Forall_impl; [|exact Hx]. intros a. apply H.
Qed.

(** Sorting by a numeric key, ascending or descending: the comparator is
    the difference of the keys, or its opposite. *)
Lemma sort_by_key {A : Type} (key : A -> Z) (compareFn : A -> A -> Z)
  (direction : SortDirection) (l : list A) :
  (forall a b, compareFn a b
               = match direction with
                 | Asc => key a - key b
                 | Desc => - (key a - key b)
                 end) ->
  StronglySorted
    (fun a b => match direction with
                | Asc => key a <= key b
                | Desc => key b <= key a
                end) (Js.sort compareFn l) /\
  forall k, filter (fun a => key a =? k) (Js.sort compareFn l)
            = filter (fun a => key a =? k) l.
Proof.
  intros Hcmp. destruct direction.
  - assert (Hk : forall a b, compareFn a b <= 0 <-> key a <= key b)
      by (intros a b; rewrite Hcmp; lia).
    split; [now apply sort_sorted | intros k; now apply sort_stable].
  - assert (Hk : forall a b, compareFn a b <= 0 <-> - key a <= - key b)
      by (intros a b; rewrite Hcmp; lia).
    split.
    + eapply StronglySorted_weaken;
        [|apply (sort_sorted compareFn (fun a => - key a) Hk)].
      simpl. intros; lia.
    + intros k.
      assert (Hext : forall a, (key a =? k) = (- key a =? - k)).
      { intros a. destruct (key a =? k) eqn:E.
        - apply Z.eqb_eq in E. symmetry. apply Z.eqb_eq. lia.
        - apply Z.eqb_neq in E. symmetry. apply Z.eqb_neq. lia. }
      rewrite !(filter_ext _ _ Hext).
      now apply (sort_stable compareFn (fun a => - key a) Hk).
Qed.

(** X1.  Whatever the sort column and direction, and whatever the locale
    compares, the table shows every node of the list exactly once. *)
Theorem sorted_nodes_permutation (localeCompare : string -> string -> Z)
  (nodes : list Node.t) (servers : list Server.t) (field : string)
  (direction : SortDirection) :
  Permutation nodes
    (getSortedNodes localeCompare nodes servers field direction).
Proof. apply sort_perm. Qed.

(** X2.  With a sort column that the switch does not know, the table shows
    the nodes in the order of the list, in both directions. *)
Theorem unknown_column_keeps_order (localeCompare : string -> string -> Z)
  (nodes : list Node.t) (servers : list Server.t) (field : string)
  (direction : SortDirection) :
  field <> "name" -> field <> "fqdn" -> field <> "port" ->
  field <> "status" -> field <> "servers" ->
  getSortedNodes localeCompare nodes servers field direction = nodes.
Proof.
  intros H1 H2 H3 H4 H5. apply sort_constant. intros a b.
  unfold compareNodes.
  apply String.eqb_neq in H1, H2, H3, H4, H5.
  rewrite H1, H2, H3, H4, H5. now destruct direction.
Qed.

Lemma unknown_column_keeps_order_witness :
  getSortedNodes (fun _ _ => 0) [otherNode false; sampleNode true None] []
                 "createdAt" Desc
  = [otherNode false; sampleNode true None].
Proof.
  apply unknown_column_keeps_order; discriminate.
Defined.

(** X3.  Sorted by port, the table is in non-decreasing port order when
    ascending and in non-increasing port order when descending; nodes with
    the same port keep the order of the list in both directions. *)
Theorem sorted_by_port (localeCompare : string -> string -> Z)
  (nodes : list Node.t) (servers : list Server.t)
  (direction : SortDirection) :
  let sorted := getSortedNodes localeCompare nodes servers "port" direction in
  StronglySorted
    (fun a b => match direction with
                | Asc => Node.port a <= Node.port b
                | Desc => Node.port b <= Node.port a
                end) sorted /\
  forall p, filter (fun n => Node.port n =? p) sorted
            = filter (fun n => Node.port n =? p) nodes.
Proof.
  apply (sort_by_key Node.port). intros a b. reflexivity.
Qed.

(** X4.  Sorted by server count, the table is ordered by the number of
    servers bound to each node (non-decreasing when ascending,
    non-increasing when descending); nodes with the same count keep the
    order of the list. *)
Theorem sorted_by_server_count (localeCompare : string -> string -> Z)
  (nodes : list Node.t) (servers : list Server.t)
  (direction : SortDirection) :
  let count n := Z.of_nat (length (nodeServers servers n)) in
  let sorted :=
    getSortedNodes localeCompare nodes servers "servers" direction in
  StronglySorted
    (fun a b => match direction with
                | Asc => count a <= count b
                | Desc => count b <= count a
                end) sorted /\
  forall k, filter (fun n => count n =? k) sorted
            = filter (fun n => count n =? k) nodes.
Proof.
  intros count.
  apply (sort_by_key count). intros a b. reflexivity.
Qed.

(** X5.  Sorted by status, ascending, the table shows the online nodes
    first and the offline nodes after them, each group in the order of the
    list; descending, the offline nodes come first. *)
Theorem sorted_by_status (localeCompare : string -> string -> Z)
  (nodes : list Node.t) (servers : list Server.t) :
  getSortedNodes localeCompare nodes servers "status" Asc
  = filter Node.isOnline nodes
    ++ filter (fun n => negb (Node.isOnline n)) nodes /\
  getSortedNodes localeCompare nodes servers "status" Desc
  = filter (fun n => negb (Node.isOnline n)) nodes
    ++ filter Node.isOnline nodes.
Proof.
  set (key := fun n : Node.t => - Js.Number (Node.isOnline n)).
  assert (Hvalues : forall l : list Node.t,
             Forall (fun n => key n = -1 \/ key n = 0) l).
  { intros l. apply Forall_forall. intros n _. unfold key.
    destruct (Node.isOnline n); simpl; lia. }
  assert (Hon : forall l, filter (fun n => key n =? -1) l
                          = filter Node.isOnline l).
  { intros l. apply filter_ext. intros n. unfold key.
    now destruct (Node.isOnline n). }
  assert (Hoff : forall l, filter (fun n => key n =? 0) l
                           = filter (fun n => negb (Node.isOnline n)) l).
  { intros l. apply filter_ext. intros n. unfold key.
    now destruct (Node.isOnline n). }
  split.
  - destruct (sort_by_key key
                (compareNodes localeCompare servers "status" Asc) Asc nodes)
      as [Hs Hst].
    { intros a b. unfold compareNodes, key. simpl. lia. }
    unfold getSortedNodes.
    rewrite (two_valued_sorted key (-1) 0 _ ltac:(lia) (Hvalues _) Hs).
    now rewrite !Hst, Hon, Hoff.
  - set (key' := fun n : Node.t => - key n).
    destruct (sort_by_key key
                (compareNodes localeCompare servers "status" Desc) Desc nodes)
      as [Hs Hst].
    { intros a b. unfold compareNodes, key. simpl. lia. }
    unfold getSortedNodes.
    assert (Hs' : StronglySorted (fun a b => key' a <= key' b)
                    (Js.sort (compareNodes localeCompare servers
                                           "status" Desc) nodes)).
    { eapply StronglySorted_weaken; [|exact Hs].
      unfold key'. simpl. intros; lia. }
    assert (Hvalues' : forall l : list Node.t,
               Forall (fun n => key' n = 0 \/ key' n = 1) l).
    { intros l. apply Forall_forall. intros n _. unfold key', key.
      destruct (Node.isOnline n); simpl; lia. }
    rewrite (two_valued_sorted key' 0 1 _ ltac:(lia) (Hvalues' _) Hs').
    assert (H0 : forall l, filter (fun n => key' n =? 0) l
                           = filter (fun n => key n =? 0) l).
    { intros l. apply filter_ext. intros n. unfold key', key.
      now destruct (Node.isOnline n). }
    assert (H1 : forall l, filter (fun n => key' n =? 1) l
                           = filter (fun n => key n =? -1) l).
    { intros l. apply filter_ext. intros n. unfold key', key.
      now destruct (Node.isOnline n). }
    now rewrite !H0, !H1, !Hst, Hon, Hoff.
Qed.

(* ================================================================== *)
(** * The allocation selection: [toggleAllocation] *)

Lemma includes_In (id : string) (l : list string) :
  existsb (fun allocId => String.eqb allocId id) l = true <-> In id l.
Proof.
  rewrite existsb_exists. split.
  - intros (x & Hx & E). apply String.eqb_eq in E. now subst.
  - intros H. exists id. split; [exact H | apply String.eqb_refl].
Qed.

Lemma without_In (id x : string) (l : list string) :
  In x (filter (fun allocId => negb (String.eqb allocId id)) l)
  <-> In x l /\ x <> id.
Proof.
  rewrite filter_In, negb_true_iff, String.eqb_neq. reflexivity.
Qed.

Lemma without_absent (id : string) (l : list string) :
  ~ In id l -> filter (fun allocId => negb (String.eqb allocId id)) l = l.
Proof.
  induction l as [|y t IH]; intros H; simpl; [reflexivity|].
  destruct (String.eqb y id) eqn:E.
  - apply String.eqb_eq in E. subst. contradiction H. now left.
  - simpl. f_equal. apply IH. intros Hin. apply H. now right.
Qed.

(** X6.  Ticking an allocation flips its membership in the selection and
    leaves the membership of every other allocation as it was; a selection
    without duplicates stays without duplicates. *)
Theorem toggle_flips_membership (id : string) (s : AppState) :
  let before := selectedAllocations s in
  let after := selectedAllocations (toggleAllocation id s) in
  (In id after <-> ~ In id before) /\
  (forall other, other <> id -> (In other after <-> In other before)) /\
  (NoDup before -> NoDup after).
Proof.
  intros before after. unfold after, toggleAllocation.
  cbn [selectedAllocations setSelectedAllocations]. fold before.
  destruct (existsb _ before) eqn:E.
  - apply includes_In in E. split; [|split].
    + rewrite without_In. split; [intros [_ H]; congruence | tauto].
    + intros other Hne. rewrite without_In. tauto.
    + intros Hnd. now apply NoDup_filter.
  - assert (Hout : ~ In id before).
    { intros H. apply includes_In in H. congruence. }
    split; [|split].
    + rewrite in_app_iff. simpl. tauto.
    + intros other Hne. rewrite in_app_iff. simpl.
      split; [intros [H|[H|[]]]; [exact H | congruence] | tauto].
    + intros Hnd. apply NoDup_app; [exact Hnd | repeat constructor; tauto |].
      intros x Hx [Hid|[]]. subst. contradiction.
Qed.

Lemma toggle_flips_membership_witness :
  NoDup (selectedAllocations (toggleAllocation "3" twoTicked)) /\
  NoDup (selectedAllocations (toggleAllocation "1" twoTicked)).
Proof.
  assert (Hnd : NoDup (selectedAllocations twoTicked)).
  { repeat constructor; simpl; intuition discriminate. }
  split.
  - destruct (toggle_flips_membership "3" twoTicked) as (_ & _ & H).
    exact (H Hnd).
  - destruct (toggle_flips_membership "1" twoTicked) as (_ & _ & H).
    exact (H Hnd).
Defined.

(** X7.  Ticking the same allocation twice gives a selection with the same
    members; when the allocation was not ticked at first, it gives the
    very same selection back. *)
Theorem toggle_twice (id : string) (s : AppState) :
  let before := selectedAllocations s in
  let after :=
    selectedAllocations (toggleAllocation id (toggleAllocation id s)) in
  (forall x, In x after <-> In x before) /\
  (~ In id before -> after = before).
Proof.
  intros before after. unfold after, toggleAllocation.
  cbn [selectedAllocations setSelectedAllocations]. fold before.
  destruct (existsb _ before) eqn:E.
  - apply includes_In in E.
    assert (Hgone : existsb (fun allocId => String.eqb allocId id)
                      (filter (fun allocId => negb (String.eqb allocId id))
                              before) = false).
    { apply not_true_is_false. intros H. apply includes_In in H.
      apply without_In in H. tauto. }
    rewrite Hgone. split; [|tauto].
    intros x. rewrite in_app_iff, without_In. simpl.
    destruct (string_dec x id) as [->|Hne]; [tauto|].
    split; [intros [[H _]|[H|[]]]; [exact H | congruence] | tauto].
  - assert (Hout : ~ In id before).
    { intros H. apply includes_In in H. congruence. }
    assert (Hnow : existsb (fun allocId => String.eqb allocId id)
                     (before ++ [id]) = true).
    { apply includes_In, in_app_iff. right. now left. }
    rewrite Hnow.
    assert (Hback : filter (fun allocId => negb (String.eqb allocId id))
                      (before ++ [id]) = before).
    { rewrite filter_app, without_absent by exact Hout. simpl.
      rewrite String.eqb_refl. simpl. apply app_nil_r. }
    rewrite Hback. split; [reflexivity | reflexivity].
Qed.

Lemma toggle_twice_witness :
  selectedAllocations (toggleAllocation "3" (toggleAllocation "3" twoTicked))
  = selectedAllocations twoTicked.
Proof.
  destruct (toggle_twice "3" twoTicked) as [_ H]. apply H.
  simpl. intuition discriminate.
Defined.

(* ================================================================== *)
(** * The paging control and the rows of a page *)

Lemma in_Zrange (a b p : Z) : In p (Zrange a b) <-> a <= p <= b.
Proof.
  unfold Zrange. rewrite in_map_iff. split.
  - intros (i & <- & Hi). apply in_seq in Hi. lia.
  - intros H. exists (Z.to_nat (p - a)). split; [lia | apply in_seq; lia].
Qed.

(** The numbered buttons are a run of consecutive pages inside
    1 .. totalPages, whatever the current page. *)
Lemma pageButtons_run (pagination : PaginationState.t) :
  let v := renderPagination pagination in
  exists first,
    1 <= first /\
    first + Z.min 5 (totalPages v) - 1 <= totalPages v /\
    pageButtons v = Zrange first (first + Z.min 5 (totalPages v) - 1).
Proof.
  intros v. set (tp := totalPages v).
  set (current := PaginationState.page pagination).
  assert (Htp : 1 <= tp) by (unfold tp, v; simpl; lia).
  assert (Hb : pageButtons v
               = Js.array_from (Z.min 5 tp) (pageNum tp current))
    by reflexivity.
  destruct (Z_le_gt_dec tp 5) as [Hs|Hg].
  - exists 1. split; [lia|]. split; [lia|].
    rewrite Hb. unfold Js.array_from, Zrange.
    replace (Z.min 5 tp) with tp by lia.
    replace (1 + tp - 1 - 1 + 1) with tp by lia.
    apply map_ext. intros i. unfold pageNum.
    destruct (tp <=? 5) eqn:E; [lia | apply Z.leb_gt in E; lia].
  - replace (Z.min 5 tp) with 5 in * by lia.
    rewrite Hb, array_from_five. unfold pageNum.
    destruct (tp <=? 5) eqn:E1; [apply Z.leb_le in E1; lia|].
    destruct (current <=? 3) eqn:E2.
    + exists 1. split; [lia|]. split; [lia|].
      rewrite Zrange_five by lia. elementwise.
    + apply Z.leb_gt in E2.
      destruct (current >=? tp - 2) eqn:E3; rewrite Z.geb_leb in E3.
      * exists (tp - 4). split; [lia|]. split; [lia|].
        rewrite Zrange_five by lia. elementwise.
      * apply Z.leb_gt in E3.
        exists (current - 2). split; [lia|]. split; [lia|].
        rewrite Zrange_five by lia. elementwise.
Qed.

(** X8.  For a page size of at least 1 and whatever the current page, also
    one that lies outside the pages that exist, every numbered button of
    the paging control leads to a page within 1 .. totalPages, and the
    buttons are min(5, totalPages) consecutive pages in increasing
    order. *)
Theorem page_buttons_in_range (pagination : PaginationState.t) :
  1 <= PaginationState.limit pagination ->
  let v := renderPagination pagination in
  Forall (fun p => 1 <= p <= totalPages v) (pageButtons v) /\
  Z.of_nat (length (pageButtons v)) = Z.min 5 (totalPages v) /\
  exists first,
    pageButtons v = Zrange first (first + Z.min 5 (totalPages v) - 1).
Proof.
  intros _ v.
  destruct (pageButtons_run pagination) as (first & H1 & H2 & Hrun).
  fold v in H2, Hrun.
  assert (Htp : 1 <= totalPages v) by (unfold v; simpl; lia).
  split; [|split].
  - rewrite Hrun. apply Forall_forall. intros p Hp.
    apply in_Zrange in Hp. lia.
  - change (pageButtons v)
      with (Js.array_from (Z.min 5 (totalPages v))
              (pageNum (totalPages v) (PaginationState.page pagination))).
    rewrite array_from_length. lia.
  - exists first. exact Hrun.
Qed.

Lemma page_buttons_in_range_witness :
  Forall (fun p => 1 <= p <= 2)
         (pageButtons (renderPagination (PaginationState.mk 7 10 15))) /\
  Z.of_nat (length (pageButtons
                      (renderPagination (PaginationState.mk 7 10 15)))) = 2.
Proof.
  destruct (page_buttons_in_range (PaginationState.mk 7 10 15))
    as (Hall & Hlen & _); [simpl; lia|].
  split; [exact Hall | exact Hlen].
Defined.

(** X9.  For a page size of at least 1: from a page within
    1 .. totalPages, a click on any control of the pager (the previous chevron, the next chevron, a numbered button)
    leaves the window on a page within 1 .. totalPages and changes neither
    the page size nor the total; the previous chevron stays on page 1 and
    the next chevron on the last page. *)
Theorem paging_stays_in_range (s : AppState) (target : Z) :
  let pagination := allocationPagination s in
  let tp := totalPages (renderPagination pagination) in
  1 <= PaginationState.limit pagination ->
  1 <= PaginationState.page pagination <= tp ->
  In target (previousTarget pagination :: nextTarget pagination
             :: pageButtons (renderPagination pagination)) ->
  let after := allocationPagination (handlePageChange target s) in
  PaginationState.page after = target /\
  1 <= PaginationState.page after <= totalPages (renderPagination after) /\
  PaginationState.limit after = PaginationState.limit pagination /\
  PaginationState.total after = PaginationState.total pagination /\
  (PaginationState.page pagination = 1 -> previousTarget pagination = 1) /\
  (PaginationState.page pagination = tp -> nextTarget pagination = tp).
Proof.
  intros pagination tp _ Hpage Htarget after.
  assert (Hrange : 1 <= target <= tp).
  { destruct Htarget as [<-|[<-|Hin]].
    - unfold previousTarget. lia.
    - unfold nextTarget. fold tp. lia.
    - destruct (pageButtons_run pagination) as (first & H1 & H2 & Hrun).
      rewrite Hrun in Hin. apply in_Zrange in Hin. fold tp in H2. lia. }
  unfold after, handlePageChange.
  cbn [allocationPagination setAllocationPagination PaginationState.with_page
       PaginationState.page PaginationState.limit PaginationState.total].
  fold pagination.
  split; [reflexivity|]. split.
  { change (totalPages (renderPagination
              (PaginationState.mk target (PaginationState.limit pagination)
                                  (PaginationState.total pagination))))
      with tp. exact Hrange. }
  split; [reflexivity|]. split; [reflexivity|]. split.
  - intros H. unfold previousTarget. lia.
  - intros H. unfold nextTarget. fold tp. lia.
Qed.

Lemma paging_stays_in_range_witness :
  PaginationState.page
    (allocationPagination (handlePageChange 2 firstOfEleven)) = 2 /\
  previousTarget (allocationPagination firstOfEleven) = 1.
Proof.
  destruct (paging_stays_in_range firstOfEleven 2)
    as (Hpage & _ & _ & _ & Hprev & _).
  - vm_compute; discriminate.
  - split; vm_compute; discriminate.
  - right. left. reflexivity.
  - split; [exact Hpage | apply Hprev; reflexivity].
Defined.

Lemma nslice_length {A : Type} (l : list A) (i j : nat) :
  length (nslice l i j) = Nat.min (j - i) (length l - i).
Proof. unfold nslice. now rewrite length_firstn, length_skipn. Qed.

(** X10.  For a page number and a page size of at least 1, the number of
    rows on a page is min(page*limit, total) - (page-1)*limit, and 0 when
    that is negative: at most [limit] rows, exactly [limit] on every page
    before the last, none on a page past the end. *)
Theorem rows_on_page (node : Node.t) (L p : Z) :
  1 <= L -> 1 <= p ->
  let total := Z.of_nat (length (allocationsOf node)) in
  let shown := Z.of_nat (length (pageRows node L p)) in
  shown = Z.max 0 (Z.min (p * L) total - (p - 1) * L) /\
  shown <= L /\
  (p * L <= total -> shown = L) /\
  (total <= (p - 1) * L -> pageRows node L p = []).
Proof.
  intros HL Hp total shown.
  assert (Hshown : shown = Z.max 0 (Z.min (p * L) total - (p - 1) * L)).
  { unfold shown. rewrite pageRows_window by assumption.
    rewrite nslice_length, partition_length. fold total.
    assert (0 <= (p - 1) * L) by nia. assert (0 <= p * L) by nia.
    unfold total. lia. }
  split; [exact Hshown|]. split; [nia|]. split; [intros; nia|].
  intros Hpast. apply length_zero_iff_nil.
  assert (shown = 0) by nia. unfold shown in *. lia.
Qed.

Lemma rows_on_page_witness :
  Z.of_nat (length (pageRows (sampleNode true (Some mixedPool)) 10 2)) = 5 /\
  pageRows (sampleNode true (Some mixedPool)) 10 3 = [].
Proof.
  destruct (rows_on_page (sampleNode true (Some mixedPool)) 10 2)
    as (H2 & _); [lia | lia |].
  destruct (rows_on_page (sampleNode true (Some mixedPool)) 10 3)
    as (_ & _ & _ & H3); [lia | lia |].
  split; [exact H2 | apply H3; vm_compute; discriminate].
Defined.

(** X11.  On a page that holds at least one allocation, the caption
    "Showing a to b of total" of the paging control counts the rows of the
    page: a is (page-1)*limit + 1, b is min(page*limit, total), and the
    page shows b - a + 1 rows.  On a page past the end of a pool the
    caption reads "Showing total to total" although no row is shown. *)
Theorem caption_counts_rows (node : Node.t) (L p : Z) :
  1 <= L -> 1 <= p ->
  let total := Z.of_nat (length (allocationsOf node)) in
  let v := renderPagination (PaginationState.mk p L total) in
  let shown := Z.of_nat (length (pageRows node L p)) in
  ((p - 1) * L < total ->
   showingFrom v = (p - 1) * L + 1 /\
   showingTo v = Z.min (p * L) total /\
   shown = showingTo v - showingFrom v + 1) /\
  (total <= (p - 1) * L ->
   showingFrom v = total /\ showingTo v = total /\ shown = 0).
Proof.
  intros HL Hp total v shown.
  assert (Hshown : shown = Z.max 0 (Z.min (p * L) total - (p - 1) * L)).
  { unfold shown. rewrite pageRows_window by assumption.
    rewrite nslice_length, partition_length. fold total.
    assert (0 <= (p - 1) * L) by nia. assert (0 <= p * L) by nia.
    unfold total. lia. }
  unfold v. cbn [renderPagination showingFrom showingTo PaginationState.page
                 PaginationState.limit PaginationState.total].
  split; intros H; repeat split; nia.
Qed.

Lemma caption_counts_rows_witness :
  showingFrom (renderPagination (PaginationState.mk 2 10 15)) = 11 /\
  showingTo (renderPagination (PaginationState.mk 2 10 15)) = 15 /\
  showingFrom (renderPagination (PaginationState.mk 3 10 15)) = 15.
Proof.
  destruct (caption_counts_rows (sampleNode true (Some mixedPool)) 10 2)
    as (Hin & _); [lia | lia |].
  destruct (caption_counts_rows (sampleNode true (Some mixedPool)) 10 3)
    as (_ & Hout); [lia | lia |].
  destruct Hin as (Hf & Ht & _); [vm_compute; reflexivity|].
  destruct Hout as (Hf3 & _); [vm_compute; discriminate|].
  split; [exact Hf | split; [exact Ht | exact Hf3]].
Defined.

Lemma slice_incl {A : Type} (l : list A) (s e : Z) (x : A) :
  In x (Js.slice l s e) -> In x l.
Proof.
  unfold Js.slice. intros H.
  set (k := Z.to_nat (Js.rel_index (Z.of_nat (length l)) s)) in *.
  set (m := Z.to_nat _) in H.
  rewrite <- (firstn_skipn k l). apply in_or_app. right.
  rewrite <- (firstn_skipn m (skipn k l)). apply in_or_app. now left.
Qed.

(** X12.  Whatever the page and the page size, every row of the "In Use"
    group is an assigned allocation of the selected node and every row of
    the "Available" group (the rows that carry the tick box and the delete
    button) is an unassigned one. *)
Theorem groups_are_pure (node : Node.t) (pagination : PaginationState.t)
  (v : AllocationTabView) :
  renderAllocationTab (Some node) pagination = Some v ->
  Forall (fun a => In a (allocationsOf node) /\ Allocation.assigned a = true)
         (rows (inUseGroup v)) /\
  Forall (fun a => In a (allocationsOf node) /\ Allocation.assigned a = false)
         (rows (availableGroup v)).
Proof.
  intros Hv. injection Hv as <-. cbn [inUseGroup availableGroup].
  split; apply Forall_forall; intros a Ha.
  - destruct (_ && _) in Ha; [|contradiction].
    apply slice_incl, filter_In in Ha. exact Ha.
  - destruct (_ && _) in Ha; [|contradiction].
    apply slice_incl, filter_In in Ha.
    destruct Ha as [Hin Hneg]. apply negb_true_iff in Hneg. now split.
Qed.

Lemma groups_are_pure_witness :
  exists v,
    renderAllocationTab (Some (sampleNode true (Some mixedPool)))
                        (PaginationState.mk 1 10 15) = Some v /\
    Forall (fun a => In a mixedPool /\ Allocation.assigned a = false)
           (rows (availableGroup v)).
Proof.
  eexists. split; [reflexivity|].
  exact (proj2 (groups_are_pure (sampleNode true (Some mixedPool))
                  (PaginationState.mk 1 10 15) _ eq_refl)).
Defined.

(** X13.  After a deletion that went through, when the refreshed node still
    has allocations and the window was on a page of at least 1 (page size at
    least 1), the page the window ends on shows at least one allocation of
    the refreshed node: the user is never left on an empty page. *)
Theorem deletion_lands_on_rows (w : World) (st : AppState)
  (h : list Request) (selected : Node.t) (allocationId : string)
  (body : JsonResult unit) (nd : Node.t) (l : list Allocation.t) :
  selectedNode st = Some selected ->
  deleteAllocation w h (Node.id selected) allocationId
    = Fulfilled (RespOk body) ->
  getNode w (h ++ [DeleteAllocation (Node.id selected) allocationId])
          (Node.id selected) = Fulfilled (RespOk (Parsed nd)) ->
  Node.allocations nd = Some l ->
  l <> [] ->
  1 <= PaginationState.limit (allocationPagination st) ->
  1 <= PaginationState.page (allocationPagination st) ->
  let after :=
    allocationPagination
      (ui (snd (run (handleDeleteAllocation w st allocationId) st h))) in
  1 <= PaginationState.page after /\
  pageRows nd (PaginationState.limit after) (PaginationState.page after)
  <> [].
Proof.
  intros Hsel Hdel Hget Hal Hne Hlimit Hpage after.
  destruct (delete_pagination w st h selected allocationId body nd
              Hsel Hdel Hget) as (_ & _ & _ & Hpag).
  unfold after. rewrite Hpag, Hal. cbv zeta.
  set (before := allocationPagination st) in *.
  set (n := Z.of_nat (length l)).
  assert (Hn : 0 < n) by (unfold n; destruct l; [congruence | simpl; lia]).
  pose proof (ceil_div_spec n (PaginationState.limit before) ltac:(lia))
    as Hc.
  set (tp := Js.ceil_div n (PaginationState.limit before)) in *.
  unfold is_ceiling in Hc.
  assert (Htp : 0 < tp) by nia.
  assert (Hrows : forall p, 1 <= p ->
            (p - 1) * PaginationState.limit before < n ->
            pageRows nd (PaginationState.limit before) p <> []).
  { intros p Hp Hlt Hnil.
    apply (f_equal (@length _)) in Hnil.
    rewrite pageRows_window in Hnil by lia.
    rewrite nslice_length, partition_length in Hnil.
    unfold allocationsOf in Hnil. rewrite Hal in Hnil. fold n in Hnil.
    simpl in Hnil.
    assert (0 <= (p - 1) * PaginationState.limit before) by nia.
    assert ((p - 1) * PaginationState.limit before
            < p * PaginationState.limit before) by nia.
    unfold n in *. lia. }
  destruct (PaginationState.page before >? tp) eqn:E1;
    destruct (tp >? 0) eqn:E2;
    rewrite Z.gtb_ltb in E1, E2;
    try apply Z.ltb_lt in E1; try apply Z.ltb_ge in E1;
    try apply Z.ltb_lt in E2; try apply Z.ltb_ge in E2;
    cbn [andb PaginationState.page PaginationState.limit];
    try lia;
    (split; [lia | apply Hrows; nia]).
Qed.

Lemma deletion_lands_on_rows_witness :
  pageRows (sampleNode true (Some (firstn 10 elevenFree))) 10 1 <> [].
Proof.
  destruct (deletion_lands_on_rows
              (steadyWorld (sampleNode true (Some (firstn 10 elevenFree))))
              lastOfEleven []
              (sampleNode true (Some elevenFree)) "10" (Parsed tt)
              (sampleNode true (Some (firstn 10 elevenFree)))
              (firstn 10 elevenFree)
              eq_refl eq_refl eq_refl eq_refl)
    as (_ & Hrows); [discriminate | simpl; lia | simpl; lia |].
  exact Hrows.
Defined.

(* ================================================================== *)
(** * Failures of the allocation handlers and of the refreshes *)

(** X14.  When the deletion of an allocation does not go through (the
    request is rejected, or the response is not ok), the handler issues no
    refresh and changes nothing but the notices: it raises one error with
    the message of the failure (the server's error text, or "Failed to
    delete allocation" when there is none); the selection, the selected
    node, the node list and the pagination window are as before. *)
Theorem allocation_deletion_refused (w : World) (st : AppState)
  (h : list Request) (selected : Node.t) (allocationId message : string) :
  selectedNode st = Some selected ->
  refusal (deleteAllocation w h (Node.id selected) allocationId)
          "Failed to delete allocation" = Some message ->
  run (handleDeleteAllocation w st allocationId) st h
  = (Returned tt,
     mkStore (withNotice AlertError message st)
             (h ++ [DeleteAllocation (Node.id selected) allocationId])).
Proof.
  intros Hsel Hrefusal. unfold handleDeleteAllocation. rewrite Hsel.
  run_handler.
  destruct (deleteAllocation w h (Node.id selected) allocationId)
    as [e|[body|[data|e]]]; simpl in Hrefusal;
    try discriminate; injection Hrefusal as <-; reflexivity.
Qed.

Lemma allocation_deletion_refused_witness :
  selectedAllocations
    (ui (snd (run (handleDeleteAllocation (refusingWorld None) twoTicked "1")
                  twoTicked []))) = ["1"; "2"] /\
  log (snd (run (handleDeleteAllocation (refusingWorld None) twoTicked "1")
                twoTicked []))
  = [DeleteAllocation "n1" "1"].
Proof.
  rewrite (allocation_deletion_refused (refusingWorld None) twoTicked []
             (sampleNode true (Some elevenFree)) "1" "Failed to fetch"
             eq_refl eq_refl).
  split; reflexivity.
Defined.

(** X15.  When the creation of an allocation does not go through, the
    handler issues no refresh, raises one error notice with the message of
    the failure and shows the same message in the form; what the user
    typed stays in the form, the pagination window and the selected node
    are as before, and the submit button is enabled again. *)
Theorem allocation_creation_refused (w : World) (st : AppState)
  (h : list Request) (selected : Node.t) (message : string) :
  refusal (postAllocation w h (Node.id selected) (allocationFormData st))
          "Failed to create allocation" = Some message ->
  let result := run (handleCreateAllocation w st selected) st h in
  fst result = Returned tt /\
  log (snd result)
  = h ++ [PostAllocation (Node.id selected) (allocationFormData st)] /\
  alerts (ui (snd result)) = alerts st ++ [mkAlert AlertError message] /\
  allocationFormError (ui (snd result)) = Some message /\
  allocationFormData (ui (snd result)) = allocationFormData st /\
  allocationFormMode (ui (snd result)) = allocationFormMode st /\
  isCreatingAllocation (ui (snd result)) = false /\
  allocationPagination (ui (snd result)) = allocationPagination st /\
  selectedNode (ui (snd result)) = selectedNode st /\
  nodes (ui (snd result)) = nodes st.
Proof.
  intros Hrefusal result. unfold result, handleCreateAllocation.
  run_handler.
  destruct (postAllocation w h (Node.id selected) (allocationFormData st))
    as [e|[body|[data|e]]]; simpl in Hrefusal;
    try discriminate; injection Hrefusal as <-; repeat split.
Qed.

Lemma allocation_creation_refused_witness :
  allocationFormError
    (ui (snd (run (handleCreateAllocation (refusingWorld None)
                     (withPortForm 25565 firstOfEleven)
                     (sampleNode true (Some elevenFree)))
                  (withPortForm 25565 firstOfEleven) [])))
  = Some "Failed to fetch".
Proof.
  destruct (allocation_creation_refused (refusingWorld None)
              (withPortForm 25565 firstOfEleven) []
              (sampleNode true (Some elevenFree)) "Failed to fetch" eq_refl)
    as (_ & _ & _ & Herr & _).
  exact Herr.
Defined.

(** X16.  Whatever the server answers to the creation and to the refresh
    that follows it, the create handler returns normally, its first request
    is the creation, and the submit button is enabled again at the end. *)
Theorem allocation_creation_completes (w : World) (st : AppState)
  (h : list Request) (selected : Node.t) :
  let result := run (handleCreateAllocation w st selected) st h in
  fst result = Returned tt /\
  isCreatingAllocation (ui (snd result)) = false /\
  exists rest,
    log (snd result)
    = h ++ PostAllocation (Node.id selected) (allocationFormData st) :: rest.
Proof.
  intros result. unfold result, handleCreateAllocation. run_handler.
  destruct (postAllocation w h (Node.id selected) (allocationFormData st))
    as [e|[body|[data|e]]]; run_handler;
    try (repeat split; exists []; reflexivity).
  destruct (fetchSingleNode_returns w st (Node.id selected)
              (mkStore (setAllocationFormError None
                          (setIsCreatingAllocation true st))
                       (h ++ [PostAllocation (Node.id selected)
                                             (allocationFormData st)])))
    as (r & u' & Hrefresh).
  cbn [log] in Hrefresh. rewrite Hrefresh.
  branch_handler; rewrite <- app_assoc;
    (repeat split; eexists; reflexivity).
Qed.

(** X17.  When the refresh of one node fails (the request is rejected, the
    response is not ok, or its body cannot be read), it yields no node,
    raises one error notice with the message of the failure and resets the
    loading flag; the node list, the selected node, the pagination window
    and the page-level error are not touched. *)
Theorem node_refresh_failed (w : World) (cl st : AppState)
  (h : list Request) (nodeId message : string) :
  readFailure (getNode w h nodeId) "Failed to fetch node" = Some message ->
  run (fetchSingleNode w cl nodeId) st h
  = (Returned None,
     mkStore (setLoading false
                (withNotice AlertError message (setLoading true st)))
             (h ++ [GetNode nodeId])).
Proof.
  intros Hfail. unfold fetchSingleNode. run_handler.
  destruct (getNode w h nodeId) as [e|[[nd|e]|[data|e]]];
    simpl in Hfail; try discriminate; injection Hfail as <-; reflexivity.
Qed.

Lemma node_refresh_failed_witness :
  fst (run (fetchSingleNode (refusingWorld None) firstOfEleven "n1")
           firstOfEleven []) = Returned None /\
  nodes (ui (snd (run (fetchSingleNode (refusingWorld None) firstOfEleven
                                       "n1") firstOfEleven [])))
  = nodes firstOfEleven.
Proof.
  rewrite (node_refresh_failed (refusingWorld None) firstOfEleven
             firstOfEleven [] "n1" "Failed to fetch" eq_refl).
  split; reflexivity.
Defined.

(** X18.  When the refresh of one node succeeds, it yields the node the
    server sent; in the node list every entry with that id is replaced by
    it and every other entry is kept, in place, so the list neither grows
    nor shrinks, and a node that is not in the list is not added; the
    selected node is replaced exactly when it has that id; the page-level
    error is cleared and no notice is raised. *)
Theorem node_refresh_succeeded (w : World) (cl st : AppState)
  (h : list Request) (nodeId : string) (nd : Node.t) :
  getNode w h nodeId = Fulfilled (RespOk (Parsed nd)) ->
  let result := run (fetchSingleNode w cl nodeId) st h in
  let after := ui (snd result) in
  fst result = Returned (Some nd) /\
  log (snd result) = h ++ [GetNode nodeId] /\
  length (nodes after) = length (nodes st) /\
  (forall i n, nth_error (nodes st) i = Some n ->
     nth_error (nodes after) i
     = Some (if String.eqb (Node.id n) nodeId then nd else n)) /\
  (Forall (fun n => Node.id n <> nodeId) (nodes st) ->
   nodes after = nodes st) /\
  selectedNode after
  = match selectedNode cl with
    | Some selected =>
      if String.eqb (Node.id selected) nodeId then Some nd
      else selectedNode st
    | None => selectedNode st
    end /\
  error after = None /\ alerts after = alerts st /\ loading after = false.
Proof.
  intros Hget result after.
  set (replace := fun node : Node.t =>
                    if String.eqb (Node.id node) nodeId then nd else node).
  assert (Hrun : fst result = Returned (Some nd) /\
                 log (snd result) = h ++ [GetNode nodeId] /\
                 nodes after = map replace (nodes st) /\
                 selectedNode after
                 = match selectedNode cl with
                   | Some selected =>
                     if String.eqb (Node.id selected) nodeId then Some nd
                     else selectedNode st
                   | None => selectedNode st
                   end /\
                 error after = None /\ alerts after = alerts st /\
                 loading after = false).
  { unfold after, result, fetchSingleNode. run_handler. rewrite Hget.
    branch_handler; repeat split. }
  destruct Hrun as (Hout & Hlog & Hnodes & Hsel & Herr & Hal & Hload).
  split; [exact Hout|]. split; [exact Hlog|].
  split; [now rewrite Hnodes, length_map|].
  split.
  { intros i n Hn. rewrite Hnodes, nth_error_map, Hn. reflexivity. }
  split.
  { intros Hall. rewrite Hnodes. clear - Hall.
    induction Hall as [|n t Hn _ IH]; simpl; [reflexivity|].
    rewrite IH. unfold replace at 1.
    apply String.eqb_neq in Hn. now rewrite Hn. }
  repeat split; assumption.
Qed.

Lemma node_refresh_succeeded_witness :
  nodes (ui (snd (run (fetchSingleNode
                         (steadyWorld (sampleNode true (Some elevenFree)))
                         initialState "n1")
                      (setNodes (fun _ => [otherNode true]) initialState)
                      [])))
  = [otherNode true].
Proof.
  destruct (node_refresh_succeeded
              (steadyWorld (sampleNode true (Some elevenFree)))
              initialState
              (setNodes (fun _ => [otherNode true]) initialState)
              [] "n1" (sampleNode true (Some elevenFree)) eq_refl)
    as (_ & _ & _ & _ & Hkeep & _).
  apply Hkeep. repeat constructor. discriminate.
Defined.

(** X19.  When one of the two list requests of a refresh fails (it is
    rejected, its response is not ok, or its body cannot be read), the
    refresh replaces neither the node list nor the server list, issues no
    status probe and leaves the selected node and the pagination window as
    they were: it records the message of a failed request as the
    page-level error, raises it as one error notice, and resets the loading
    flag.  Both list requests are issued in every case. *)
Theorem refresh_failed (w : World) (cl st : AppState) (h : list Request) :
  readFailure (getNodes w h) "Failed to fetch nodes" <> None \/
  readFailure (getServers w (h ++ [GetNodes])) "Failed to fetch servers"
  <> None ->
  exists message,
    (readFailure (getNodes w h) "Failed to fetch nodes" = Some message \/
     readFailure (getServers w (h ++ [GetNodes])) "Failed to fetch servers"
     = Some message) /\
    run (fetchData w cl) st h
    = (Returned tt,
       mkStore (setLoading false
                  (withNotice AlertError message
                     (setError (Some message) (setLoading true st))))
               (h ++ [GetNodes; GetServers])).
Proof.
  intros Hfail. unfold fetchData. run_handler.
  rewrite <- (app_assoc h [GetNodes] [GetServers]).
  destruct (getNodes w h) as [e|[[nodesData|e]|[data|e]]];
    destruct (getServers w (h ++ [GetNodes]))
      as [e'|[[serversData|e']|[data'|e']]];
    simpl in Hfail; run_handler;
    try (eexists; split; [left; reflexivity | reflexivity]);
    try (eexists; split; [right; reflexivity | reflexivity]).
  exfalso. destruct Hfail as [H|H]; now apply H.
Qed.

Lemma refresh_failed_witness :
  error (ui (snd (run (fetchData nodesDownWorld firstOfEleven)
                      firstOfEleven [])))
  = Some "offline" /\
  nodes (ui (snd (run (fetchData nodesDownWorld firstOfEleven)
                      firstOfEleven [])))
  = nodes firstOfEleven.
Proof.
  destruct (refresh_failed nodesDownWorld firstOfEleven firstOfEleven [])
    as (message & [Hm|Hm] & Hrun).
  - left. discriminate.
  - rewrite Hrun. simpl in Hm. injection Hm as <-. split; reflexivity.
  - rewrite Hrun. simpl in Hm. discriminate Hm.
Defined.

(** A refresh never throws; it starts with the two list requests and
    leaves the view where it was. *)
Lemma fetchData_completes (w : World) (cl : AppState) (s : Store) :
  exists u' rest,
    fetchData w cl s
    = (Returned tt, mkStore u' (log s ++ GetNodes :: GetServers :: rest)) /\
    view u' = view (ui s) /\
    loading u' = false.
Proof.
  destruct s as [u lg]. unfold fetchData. run_handler.
  rewrite <- (app_assoc lg [GetNodes] [GetServers]).
  destruct (getNodes w lg) as [e|[[nodesData|e]|[data|e]]];
    destruct (getServers w (lg ++ [GetNodes]))
      as [e'|[[serversData|e']|[data'|e']]];
    run_handler;
    try (eexists; exists []; repeat split; reflexivity).
  destruct (probes_return w (nodesWithResources nodesData serversData)
              (mkStore (setLoading true u) (lg ++ [GetNodes] ++ [GetServers])))
    as (out & Hprobes & _).
  cbn [ui log] in Hprobes. rewrite Hprobes.
  branch_handler; rewrite <- !app_assoc;
    (eexists; eexists; repeat split; reflexivity).
Qed.

(** X20.  When the server accepts the deletion of a node, the handler
    refreshes the lists and then raises the success notice, whatever the
    refresh did; when the deleted node is the one being viewed, the page
    returns to the list view with no selected node, otherwise the view
    stays. *)
Theorem node_deletion_accepted (w : World) (st : AppState)
  (h : list Request) (nodeId : string) (body : JsonResult unit) :
  deleteNode w h nodeId = Fulfilled (RespOk body) ->
  let result := run (handleDelete w st nodeId) st h in
  let after := ui (snd result) in
  fst result = Returned tt /\
  (exists rest,
     log (snd result)
     = h ++ DeleteNode nodeId :: GetNodes :: GetServers :: rest) /\
  (exists earlier,
     alerts after
     = earlier ++ [mkAlert AlertSuccess "Node deleted successfully"]) /\
  match selectedNode st with
  | Some selected =>
    if String.eqb (Node.id selected) nodeId
    then view after = ViewList /\ selectedNode after = None
    else view after = view st
  | None => view after = view st
  end.
Proof.
  intros Hreply result after. unfold after, result, handleDelete.
  run_handler. rewrite Hreply.
  destruct (fetchData_completes w st (mkStore st (h ++ [DeleteNode nodeId])))
    as (u' & rest & Hrefresh & Hview & _).
  cbn [log ui] in Hrefresh, Hview. rewrite Hrefresh.
  destruct (selectedNode st) as [selected|];
    [destruct (String.eqb (Node.id selected) nodeId)|];
    run_handler; rewrite <- app_assoc;
    (split; [reflexivity|]);
    (split; [exists rest; reflexivity|]);
    (split; [eexists; reflexivity|]);
    first [split; reflexivity | exact Hview].
Qed.

Lemma node_deletion_accepted_witness :
  view (ui (snd (run (handleDelete (steadyWorld (otherNode true))
                                   firstOfEleven "n1") firstOfEleven [])))
  = ViewList /\
  selectedNode
    (ui (snd (run (handleDelete (steadyWorld (otherNode true))
                                firstOfEleven "n1") firstOfEleven [])))
  = None.
Proof.
  destruct (node_deletion_accepted (steadyWorld (otherNode true))
              firstOfEleven [] "n1" (Parsed tt) eq_refl)
    as (_ & _ & _ & Hview).
  exact Hview.
Defined.

(* ================================================================== *)
(** * The keyboard of the search widget *)

(** X21.  While the index points into the result list, the arrow keys keep
    it there and do not change the list: the down arrow moves one row down
    and stays on the last row, the up arrow moves one row up and stays on
    the first. *)
Theorem arrows_keep_index (s : SearchBar.State) :
  index_in_range s ->
  let last := Z.of_nat (length (SearchBar.filteredServers s)) - 1 in
  index_in_range (SearchBar.arrowDown s) /\
  index_in_range (SearchBar.arrowUp s) /\
  SearchBar.selectedIndex (SearchBar.arrowDown s)
  = (if SearchBar.selectedIndex s =? last then last
     else SearchBar.selectedIndex s + 1) /\
  SearchBar.selectedIndex (SearchBar.arrowUp s)
  = (if SearchBar.selectedIndex s =? 0 then 0
     else SearchBar.selectedIndex s - 1) /\
  SearchBar.filteredServers (SearchBar.arrowDown s)
  = SearchBar.filteredServers s /\
  SearchBar.filteredServers (SearchBar.arrowUp s)
  = SearchBar.filteredServers s.
Proof.
  intros H last. subst last.
  unfold index_in_range, SearchBar.arrowDown, SearchBar.arrowUp in *.
  cbn [SearchBar.setSelectedIndex SearchBar.selectedIndex
       SearchBar.filteredServers].
  destruct (Z.eqb_spec (SearchBar.selectedIndex s)
              (Z.of_nat (length (SearchBar.filteredServers s)) - 1));
    destruct (Z.eqb_spec (SearchBar.selectedIndex s) 0);
    repeat split; first [lia | reflexivity].
Qed.

Lemma arrows_keep_index_witness :
  SearchBar.selectedIndex (SearchBar.arrowDown searchedTwiceDown) = 2 /\
  SearchBar.selectedIndex (SearchBar.arrowUp searchedTwiceDown) = 1.
Proof.
  destruct (arrows_keep_index searchedTwiceDown)
    as (_ & _ & Hdown & Hup & _).
  - split; vm_compute; [discriminate | reflexivity].
  - split; [exact Hdown | exact Hup].
Defined.

Lemma at_index_in_range {A : Type} (l : list A) (i : Z) :
  0 <= i < Z.of_nat (length l) ->
  exists x, Js.at_index l i = Some x /\ nth_error l (Z.to_nat i) = Some x.
Proof.
  intros H. unfold Js.at_index.
  destruct (i <? 0) eqn:E; [apply Z.ltb_lt in E; lia|].
  destruct (nth_error l (Z.to_nat i)) as [x|] eqn:Hx.
  - exists x. now split.
  - apply nth_error_None in Hx. lia.
Qed.

(** X22.  With the index pointing into a result list, the Enter key opens
    the console of the server at that index (the route is
    /servers/<id>/console), closes the widget and clears the query; when
    that changes the query, the widget lists every cached server again.
    The index is not reset by any of it. *)
Theorem enter_opens_selected (s : SearchBar.State) :
  index_in_range s ->
  exists server s',
    nth_error (SearchBar.filteredServers s)
              (Z.to_nat (SearchBar.selectedIndex s)) = Some server /\
    SearchBar.enterKey s
    = SearchBar.Selected
        (String.append "/servers/"
           (String.append (SearchBar.id server) "/console")) s' /\
    SearchBar.isOpen s' = false /\
    SearchBar.query s' = "" /\
    SearchBar.filteredServers s'
    = (if String.eqb (SearchBar.query s) ""
       then SearchBar.filteredServers s else SearchBar.servers s) /\
    SearchBar.servers s' = SearchBar.servers s /\
    SearchBar.selectedIndex s' = SearchBar.selectedIndex s.
Proof.
  intros H. unfold index_in_range in H.
  destruct (at_index_in_range _ _ H) as (server & Hat & Hnth).
  assert (E : (0 <? Z.of_nat (length (SearchBar.filteredServers s))) = true)
    by (apply Z.ltb_lt; lia).
  exists server.
  unfold SearchBar.enterKey, SearchBar.handleServerSelect. rewrite Hat, E.
  destruct (String.eqb (SearchBar.query s) "") eqn:Eq.
  - apply String.eqb_eq in Eq. eexists. repeat split; assumption.
  - eexists. repeat split. exact Hnth.
Qed.

Lemma enter_opens_selected_witness :
  exists s',
    SearchBar.enterKey searchedTwiceDown
    = SearchBar.Selected "/servers/s3/console" s' /\
    SearchBar.selectedIndex s' = 2.
Proof.
  destruct (enter_opens_selected searchedTwiceDown)
    as (server & s' & Hnth & Henter & _ & _ & _ & _ & Hidx).
  - split; vm_compute; [discriminate | reflexivity].
  - exists s'. split; [|exact Hidx].
    rewrite Henter. vm_compute in Hnth. injection Hnth as <-. reflexivity.
Defined.

Lemma lower_char_idempotent (c : ascii) :
  Js.lower_char (Js.lower_char c) = Js.lower_char c.
Proof.
  destruct c as [[] [] [] [] [] [] [] []]; reflexivity.
Qed.

Lemma lower_char_space (c : ascii) :
  Js.is_space (Js.lower_char c) = Js.is_space c.
Proof.
  destruct c as [[] [] [] [] [] [] [] []]; reflexivity.
Qed.

Lemma toLowerCase_idempotent (q : string) :
  Js.toLowerCase (Js.toLowerCase q) = Js.toLowerCase q.
Proof.
  induction q as [|c t IH]; simpl; [reflexivity|].
  now rewrite lower_char_idempotent, IH.
Qed.

Lemma toLowerCase_space (q : string) :
  all_space (Js.toLowerCase q) = all_space q.
Proof.
  induction q as [|c t IH]; simpl; [reflexivity|].
  now rewrite lower_char_space, IH.
Qed.

Lemma blank_decision (q : string) :
  Js.falsy (Js.trim q) = all_space q.
Proof.
  destruct (all_space q) eqn:E.
  - now apply blank_query.
  - apply not_true_is_false. intros H. apply blank_query in H. congruence.
Qed.

(** X23.  The search does not look at the case of the query: changing the
    query to either of two queries that differ only in the case of their
    letters produces the same result list and the same selection index. *)
Theorem search_ignores_query_case (q1 q2 : string) (s : SearchBar.State) :
  SearchBar.query s <> q1 -> SearchBar.query s <> q2 ->
  Js.toLowerCase q1 = Js.toLowerCase q2 ->
  SearchBar.filteredServers (SearchBar.changeQuery q1 s)
  = SearchBar.filteredServers (SearchBar.changeQuery q2 s) /\
  SearchBar.selectedIndex (SearchBar.changeQuery q1 s)
  = SearchBar.selectedIndex (SearchBar.changeQuery q2 s).
Proof.
  intros _ _ Hcase.
  assert (Hblank : all_space q1 = all_space q2)
    by (rewrite <- (toLowerCase_space q1), Hcase; apply toLowerCase_space).
  unfold SearchBar.changeQuery, SearchBar.filterEffect.
  cbn [SearchBar.setQuery SearchBar.query SearchBar.servers].
  rewrite !blank_decision, Hblank, Hcase.
  destruct (all_space q2); split; reflexivity.
Qed.

Lemma search_ignores_query_case_witness :
  SearchBar.filteredServers
    (SearchBar.changeQuery "ALPHA"
       (SearchBar.loadServers searchServers SearchBar.initial))
  = SearchBar.filteredServers
      (SearchBar.changeQuery "alpha"
         (SearchBar.loadServers searchServers SearchBar.initial)).
Proof.
  destruct (search_ignores_query_case "ALPHA" "alpha"
              (SearchBar.loadServers searchServers SearchBar.initial))
    as [H _]; [discriminate | discriminate | reflexivity |].
  exact H.
Defined.

(** X24.  In a widget with a non-empty cached list, an empty result list
    and a query that is not empty (a query that matched no server): the
    Enter key does nothing; the down arrow makes the index negative;
    clearing the query then brings the whole cached list back without
    resetting the index, and the Enter key picks no server at that index
    ([undefined]), so the selection throws instead of navigating. *)
Theorem enter_after_empty_result (s : SearchBar.State) :
  SearchBar.servers s <> [] ->
  SearchBar.filteredServers s = [] ->
  SearchBar.query s <> "" ->
  let moved := SearchBar.arrowDown s in
  let cleared := SearchBar.changeQuery "" moved in
  SearchBar.enterKey s = SearchBar.Ignored /\
  SearchBar.selectedIndex moved
  = Z.min (SearchBar.selectedIndex s + 1) (-1) /\
  SearchBar.selectedIndex moved < 0 /\
  SearchBar.filteredServers cleared = SearchBar.servers s /\
  SearchBar.selectedIndex cleared = SearchBar.selectedIndex moved /\
  SearchBar.enterKey cleared = SearchBar.SelectedUndefined.
Proof.
  intros Hservers Hempty _ moved cleared.
  unfold cleared, moved, SearchBar.enterKey, SearchBar.arrowDown,
    SearchBar.changeQuery, SearchBar.filterEffect.
  cbn [SearchBar.setQuery SearchBar.query SearchBar.servers
       SearchBar.setSelectedIndex SearchBar.setFilteredServers
       SearchBar.filteredServers SearchBar.selectedIndex].
  rewrite Hempty.
  change (Js.falsy (Js.trim "")) with true.
  cbn [length Z.of_nat Z.ltb Z.compare Z.sub Z.add Z.opp Z.pos_sub
       SearchBar.setQuery SearchBar.query SearchBar.servers
       SearchBar.setSelectedIndex SearchBar.setFilteredServers
       SearchBar.filteredServers SearchBar.selectedIndex].
  destruct (SearchBar.servers s) as [|server rest]; [congruence|].
  assert (Hneg : Z.min (SearchBar.selectedIndex s + 1) (-1) < 0) by lia.
  split; [reflexivity|]. split; [reflexivity|]. split; [exact Hneg|].
  split; [reflexivity|]. split; [reflexivity|].
  replace (0 <? Z.of_nat (length (server :: rest))) with true
    by (symmetry; apply Z.ltb_lt; simpl; lia).
  unfold Js.at_index.
  replace (Z.min (SearchBar.selectedIndex s + 1) (-1) <? 0) with true
    by (symmetry; now apply Z.ltb_lt).
  reflexivity.
Qed.

Lemma enter_after_empty_result_witness :
  SearchBar.enterKey
    (SearchBar.changeQuery ""
       (SearchBar.arrowDown
          (SearchBar.changeQuery "zzz"
             (SearchBar.loadServers searchServers SearchBar.initial))))
  = SearchBar.SelectedUndefined.
Proof.
  assert (Hservers : SearchBar.servers
                       (SearchBar.changeQuery "zzz"
                          (SearchBar.loadServers searchServers
                                                 SearchBar.initial))
                     <> []) by discriminate.
  assert (Hquery : SearchBar.query
                     (SearchBar.changeQuery "zzz"
                        (SearchBar.loadServers searchServers
                                               SearchBar.initial))
                   <> "") by discriminate.
  exact (proj2 (proj2 (proj2 (proj2 (proj2
           (enter_after_empty_result
              (SearchBar.changeQuery "zzz"
                 (SearchBar.loadServers searchServers SearchBar.initial))
              Hservers eq_refl Hquery)))))).
Defined.

(* ================================================================== *)
(** * More on refreshes, node deletion and resources *)

(** X25.  After a refresh whose list requests succeeded, started from the
    detail view of a node: when the refreshed list has a node with the id
    of the selected node, the first such entry becomes the selected node,
    and on the allocations tab the total of the pagination window becomes
    the length of its allocation list when it has one; when the refreshed
    list has no node with that id, the selected node and the window are
    left as they were.  Outside the detail view the refresh touches
    neither. *)
Theorem refresh_syncs_selected (w : World) (cl st : AppState)
  (h : list Request) (nodesData : list Node.t)
  (serversData : list Server.t) :
  getNodes w h = Fulfilled (RespOk (Parsed nodesData)) ->
  getServers w (h ++ [GetNodes]) = Fulfilled (RespOk (Parsed serversData)) ->
  let after := ui (snd (run (fetchData w cl) st h)) in
  let refreshed :=
    match selectedNode cl with
    | Some selected =>
      if View_eqb (view cl) ViewView
      then find (fun n => String.eqb (Node.id n) (Node.id selected))
                (nodes after)
      else None
    | None => None
    end in
  selectedNode after
  = match refreshed with
    | Some n => Some n
    | None => selectedNode st
    end /\
  allocationPagination after
  = match refreshed with
    | Some n =>
      match Node.allocations n with
      | Some l =>
        if Tab_eqb (activeTab cl) TabAllocations
        then PaginationState.with_total (allocationPagination st)
                                        (Z.of_nat (length l))
        else allocationPagination st
      | None => allocationPagination st
      end
    | None => allocationPagination st
    end /\
  (forall n, refreshed = Some n ->
     In n (nodes after) /\
     exists selected, selectedNode cl = Some selected /\
                      Node.id n = Node.id selected).
Proof.
  intros Hnodes Hservers after refreshed.
  set (pick := fun out : list Node.t =>
         match selectedNode cl with
         | Some selected =>
           if View_eqb (view cl) ViewView
           then find (fun n => String.eqb (Node.id n) (Node.id selected)) out
           else None
         | None => None
         end).
  assert (Hmain : exists out,
    nodes after = out /\
    selectedNode after
    = match pick out with Some n => Some n | None => selectedNode st end /\
    allocationPagination after
    = match pick out with
      | Some n =>
        match Node.allocations n with
        | Some l =>
          if Tab_eqb (activeTab cl) TabAllocations
          then PaginationState.with_total (allocationPagination st)
                                          (Z.of_nat (length l))
          else allocationPagination st
        | None => allocationPagination st
        end
      | None => allocationPagination st
      end).
  { unfold pick, after, fetchData. run_handler.
    rewrite Hnodes, Hservers. run_handler.
    destruct (probes_return w (nodesWithResources nodesData serversData)
                (mkStore (setLoading true st)
                         ((h ++ [GetNodes]) ++ [GetServers])))
      as (out & Hprobes & _).
    cbn [ui log] in Hprobes. rewrite Hprobes. run_handler.
    exists out.
    destruct (selectedNode cl) as [selected|]; run_handler;
      [|repeat split].
    destruct (View_eqb (view cl) ViewView); run_handler;
      [|repeat split].
    destruct (find _ out) as [n|] eqn:Hfind; run_handler;
      [|repeat split].
    destruct (Tab_eqb (activeTab cl) TabAllocations); run_handler;
      [destruct (Node.allocations n) as [l|] eqn:Hal; run_handler|];
      repeat split.
    cbn [allocationPagination setAllocationPagination setLoading setError
         setSelectedNode setServers setNodes].
    destruct (Node.allocations n); reflexivity. }
  destruct Hmain as (out & Hout & Hsel & Hpag).
  assert (Hpick : refreshed = pick out)
    by (unfold refreshed, pick; now rewrite Hout).
  rewrite Hpick.
  split; [exact Hsel|]. split; [exact Hpag|].
  intros n Hn. unfold pick in Hn. rewrite Hout.
  destruct (selectedNode cl) as [selected|]; [|discriminate].
  destruct (View_eqb (view cl) ViewView); [|discriminate].
  apply find_some in Hn. destruct Hn as [Hin Hid].
  split; [exact Hin|]. exists selected. split; [reflexivity|].
  now apply String.eqb_eq.
Qed.

Lemma refresh_syncs_selected_witness :
  selectedNode
    (ui (snd (run (fetchData (steadyWorld (sampleNode true (Some mixedPool)))
                             firstOfEleven) firstOfEleven [])))
  = Some (Node.with_systemState
            (withResources [] (sampleNode true (Some mixedPool)))
            (Some sampleSnapshot)) /\
  PaginationState.total
    (allocationPagination
       (ui (snd (run (fetchData
                        (steadyWorld (sampleNode true (Some mixedPool)))
                        firstOfEleven) firstOfEleven [])))) = 15.
Proof.
  destruct (refresh_syncs_selected
              (steadyWorld (sampleNode true (Some mixedPool)))
              firstOfEleven firstOfEleven []
              [sampleNode true (Some mixedPool); otherNode true] []
              eq_refl eq_refl) as (Hsel & Hpag & _).
  split; [rewrite Hsel | rewrite Hpag]; reflexivity.
Defined.

(** X26.  When the deletion request of a node is rejected on the network,
    or the body of its unsuccessful response cannot be read, the handler
    raises one error notice with the message of the failure, issues no
    refresh and changes nothing else. *)
Theorem node_deletion_failed (w : World) (st : AppState) (h : list Request)
  (nodeId message : string) :
  deleteNode w h nodeId = FetchRejected message \/
  deleteNode w h nodeId = Fulfilled (RespNotOk (Unparsable message)) ->
  run (handleDelete w st nodeId) st h
  = (Returned tt,
     mkStore (withNotice AlertError message st) (h ++ [DeleteNode nodeId])).
Proof.
  intros [Hreply|Hreply]; unfold handleDelete; run_handler;
    rewrite Hreply; reflexivity.
Qed.

Lemma node_deletion_failed_witness :
  alerts (ui (snd (run (handleDelete offlineWorld firstOfEleven "n1")
                       firstOfEleven [])))
  = [mkAlert AlertError "offline"] /\
  log (snd (run (handleDelete offlineWorld firstOfEleven "n1")
                firstOfEleven []))
  = [DeleteNode "n1"].
Proof.
  rewrite (node_deletion_failed offlineWorld firstOfEleven [] "n1" "offline"
             (or_introl eq_refl)).
  split; reflexivity.
Defined.

(** X28.  A workload bound to the node adds its cpuPercent, its memoryMiB
    times 1024*1024 and its diskMiB (0 when absent) times 1024*1024 to the
    node's allocated resources; a workload bound to another node changes
    nothing of them. *)
Theorem resources_add_workload (servers : list Server.t) (s : Server.t)
  (node : Node.t) :
  let before := withResources servers node in
  let after := withResources (servers ++ [s]) node in
  exists r r',
    Node.resources before = Some r /\ Node.resources after = Some r' /\
    if String.eqb (Node.id (Server.node s)) (Node.id node) then
      Resources.cpuAllocated r'
      = Resources.cpuAllocated r + Server.cpuPercent s /\
      Resources.memoryAllocated r'
      = Resources.memoryAllocated r + Server.memoryMiB s * (1024 * 1024) /\
      Resources.diskAllocated r'
      = Resources.diskAllocated r
        + match Server.diskMiB s with Some d => d | None => 0 end
          * (1024 * 1024)
    else r' = r.
Proof.
  intros before after. unfold before, after, withResources.
  cbn [Node.resources Node.with_resources].
  do 2 eexists. split; [reflexivity|]. split; [reflexivity|].
  unfold nodeServers. rewrite filter_app. cbn [filter].
  destruct (String.eqb (Node.id (Server.node s)) (Node.id node)).
  - cbn [Resources.cpuAllocated Resources.memoryAllocated
         Resources.diskAllocated].
    rewrite !reduce_sum_sumZ, !map_app. cbn [map].
    assert (Hsum : forall a x, sumZ (a ++ [x]) = sumZ a + x).
    { induction a as [|y t IH]; intros x; simpl; [lia|].
      rewrite IH. lia. }
    rewrite !Hsum, or_zero_value. repeat split; lia.
  - now rewrite app_nil_r.
Qed.

(** X29.  A node to which no workload of the list is bound gets zero
    allocated cpu, memory and disk. *)
Theorem resources_without_workloads (servers : list Server.t)
  (node : Node.t) :
  Forall (fun s => Node.id (Server.node s) <> Node.id node) servers ->
  Node.resources (withResources servers node) = Some (Resources.mk 0 0 0).
Proof.
  intros H. unfold withResources.
  assert (Hnone : nodeServers servers node = []).
  { unfold nodeServers. induction H as [|s t Hs _ IH]; simpl; [reflexivity|].
    apply String.eqb_neq in Hs. now rewrite Hs. }
  rewrite Hnone. reflexivity.
Qed.

Lemma resources_without_workloads_witness :
  Node.resources
    (withResources [sampleServer "s2" "n2" 80 4096 (Some 500)]
                   (sampleNode true None))
  = Some (Resources.mk 0 0 0).
Proof.
  apply resources_without_workloads. repeat constructor. discriminate.
Defined.
